(** * Inventory management services: sales and products

    A shallow embedding of [SaleServices] (sale.services.ts) and
    [ProductServices] (product.services.ts) over an explicit model of the
    document store they talk to.

    Modelling conventions.
    - Numbers are integers ([Z]); [VNaN] stands for the one non-number the
      services can compute (a product of a missing field).
    - An ObjectId is a natural number; the 24-hex-digit text form of an id and
      its parsing are not modelled.
    - A product, a seller, a purchase and a product payload are JavaScript
      objects used field by field: finite maps from field names to values.
      A sale and a sale payload are records with the fields the service
      reads and writes.
    - A collection queried by [_id] is a finite map from ids to documents; a
      collection that is only appended to and aggregated is a list in insertion
      order.
    - The Mongoose schemas are not part of the sources.  A schema is
      represented by its validator, a field of [Deployment]; casting and
      default values are not modelled, so a stored document is the inserted
      one. *)

From Stdlib Require Import ZArith.
From stdpp Require Import gmap strings list fin_maps sorting pretty.

Open Scope Z_scope.

(** ** JavaScript values and documents *)

Definition ObjectId := N.

(** A date is a point in time; the calendar operators of the aggregation
    framework are parameters of the reporting section below. *)
Definition Date := Z.

Inductive value :=
  | VUndefined
  | VNull
  | VBool (b : bool)
  | VNum (n : Z)
  | VNaN
  | VStr (s : string)
  | VId (i : ObjectId).

Global Instance value_eq_dec : EqDecision value.
Proof. solve_decision. Defined.

(** [!v] is [negb (truthy v)]: the falsy values are undefined, null, false,
    0, NaN and the empty string. *)
Definition truthy (v : value) : bool :=
  match v with
  | VUndefined | VNull | VNaN => false
  | VBool b => b
  | VNum n => negb (n =? 0)
  | VStr s => negb (String.eqb s "")
  | VId _ => true
  end.

Abbreviation doc := (gmap string value).

(** [d.k]: reading a field that is absent gives undefined. *)
Definition get (d : doc) (k : string) : value := default VUndefined (d !! k).

(** [ToNumber(v)], [None] standing for NaN.  The conversion of a string
    (and of an ObjectId, which goes through its text) is not modelled and
    gives NaN: the fields the services convert are typed [number] by
    [IProduct] and hold a number or are absent. *)
Definition to_number (v : value) : option Z :=
  match v with
  | VNum n => Some n
  | VNull => Some 0
  | VBool b => Some (if b then 1 else 0)
  | VUndefined | VNaN | VStr _ | VId _ => None
  end.

(** The number held by a field, when the field holds one. *)
Definition num_field (d : doc) (k : string) : option Z :=
  match d !! k with Some (VNum n) => Some n | _ => None end.

(** [Number(v)] as a value. *)
Definition Number (v : value) : value :=
  match to_number v with Some n => VNum n | None => VNaN end.

(** [a * b]: NaN as soon as one operand converts to NaN. *)
Definition js_mul (a b : value) : value :=
  match to_number a, to_number b with
  | Some x, Some y => VNum (x * y)
  | _, _ => VNaN
  end.

(** [q > v] for a number [q]: false when [v] converts to NaN. *)
Definition js_gt (q : Z) (v : value) : bool :=
  match to_number v with Some s => s <? q | None => false end.

(** [$inc: { k: a }]: adds to a numeric field, creates an absent field with
    the amount, and is rejected on a field that holds anything else. *)
Definition inc_field (k : string) (a : Z) (d : doc) : option doc :=
  match d !! k with
  | None => Some (<[k := VNum a]> d)
  | Some (VNum n) => Some (<[k := VNum (n + a)]> d)
  | Some _ => None
  end.

(** ** Sales *)

Record Sale := mkSale {
  product : ObjectId;
  productName : string;
  productPrice : Z;
  quantity : Z;
  buyerName : string;
  date : option Date;
  user : ObjectId;
  totalPrice : Z
}.

Definition set_user (u : ObjectId) (s : Sale) : Sale :=
  mkSale (product s) (productName s) (productPrice s) (quantity s)
         (buyerName s) (date s) u (totalPrice s).

Definition set_totalPrice (t : Z) (s : Sale) : Sale :=
  mkSale (product s) (productName s) (productPrice s) (quantity s)
         (buyerName s) (date s) (user s) t.

(** ** The store and the deployment *)

Record Store := mkStore {
  products : gmap ObjectId doc;
  sellers : gmap ObjectId doc;
  sales : list Sale;
  purchases : list doc
}.

Definition set_products (f : gmap ObjectId doc → gmap ObjectId doc) (st : Store) : Store :=
  mkStore (f (products st)) (sellers st) (sales st) (purchases st).
Definition set_sales (f : list Sale → list Sale) (st : Store) : Store :=
  mkStore (products st) (sellers st) (f (sales st)) (purchases st).
Definition set_purchases (f : list doc → list doc) (st : Store) : Store :=
  mkStore (products st) (sellers st) (sales st) (f (purchases st)).

(** What the services depend on besides the data: whether the connection is
    ready and runs against a replica set (the guard in front of
    [mongoose.startSession]), the validators of the three schemas written to
    (the message of the validation error, or [None] for a valid document),
    and the text of the driver's error for [$inc] on a non-numeric field. *)
Record Deployment := mkDeployment {
  replicaSet : bool;
  sale_schema : Sale → option string;
  product_schema : doc → option string;
  purchase_schema : doc → option string;
  inc_error : string
}.

(** ** Errors and the service monad *)

Inductive error :=
  | CustomError (status : Z) (msg : string)
  | DriverError (msg : string)
  | TypeError (msg : string).

Definition message (e : error) : string :=
  match e with CustomError _ m | DriverError m | TypeError m => m end.

(** [error.message || 'Unknown error'] *)
Definition message_or_unknown (e : error) : string :=
  if String.eqb (message e) "" then "Unknown error" else message e.

Inductive outcome (A : Type) :=
  | Return (a : A)
  | Throw (e : error).
Arguments Return {A} a.
Arguments Throw {A} e.

(** A service call runs against a store and leaves a store behind, whether
    it returns or throws. *)
Definition M (A : Type) : Type := Store → outcome A * Store.

Definition ret {A} (a : A) : M A := λ st, (Return a, st).
Definition throw {A} (e : error) : M A := λ st, (Throw e, st).
Definition bind {A B} (m : M A) (k : A → M B) : M B := λ st,
  match m st with
  | (Return a, st') => k a st'
  | (Throw e, st') => (Throw e, st')
  end.

Global Instance M_ret : MRet M := @ret.
Global Instance M_bind : MBind M := λ A B k m, bind m k.

(** [try { if (session) startTransaction(); body; if (session) commit }
     catch (error) { if (session) abort; throw handler(error) }
     finally { if (session) endSession }]:
    with a session the writes of a failed body are rolled back, without one
    they have already reached the store. *)
Definition try_transaction {A} (session : bool) (body : M A)
    (handler : error → error) : M A := λ st,
  match body st with
  | (Return a, st') => (Return a, st')
  | (Throw e, st') => (Throw (handler e), if session then st else st')
  end.

(** ** Model operations *)

(** [Model.findById(id)] on the product and seller collections. *)
Definition Product_findById (id : ObjectId) : M (option doc) := λ st,
  (Return (products st !! id), st).

Definition Seller_findById (id : value) : M (option doc) := λ st,
  (Return (match id with VId i => sellers st !! i | _ => None end), st).

(** [Product.findByIdAndUpdate(id, { $inc: { k: a } })]: the returned document
    is the one found, as it was before the update; no document, no write. *)
Definition Product_findByIdAndUpdate_inc (inc_err : string) (id : ObjectId)
    (k : string) (a : Z) : M (option doc) := λ st,
  match products st !! id with
  | None => (Return None, st)
  | Some d =>
      match inc_field k a d with
      | Some d' => (Return (Some d), set_products <[id := d']> st)
      | None => (Throw (DriverError inc_err), st)
      end
  end.

(** [Sale.create([payload])] *)
Definition Sale_create (schema : Sale → option string) (payload : Sale) : M (list Sale) := λ st,
  match schema payload with
  | None => (Return [payload], set_sales (λ l, l ++ [payload]) st)
  | Some m => (Throw (DriverError m), st)
  end.

(** ** Aggregation stages over the sale collection *)

(** [Sale.aggregate(pipeline)]: a pipeline is a function of the documents of
    the collection; the server may reject it with a message. *)
Definition Sale_aggregate {R} (pipeline : list Sale → string + R) : M R := λ st,
  match pipeline (sales st) with
  | inr rows => (Return rows, st)
  | inl m => (Throw (DriverError m), st)
  end.

(** [$match: { user, date: { $exists: true, $ne: null } }]: the sales of the
    user that carry a date, each with that date. *)
Definition match_user_dated (userId : ObjectId) (l : list Sale) : list (Date * Sale) :=
  omap (λ s, if decide (user s = userId) then (λ d, (d, s)) <$> date s else None) l.

(** A document leaving [$group]. *)
Record Group (K : Type) := mkGroup {
  _id : K;
  totalQuantity : Z;
  totalRevenue : Z
}.
Arguments mkGroup {K} _ _ _.
Arguments _id {K} _.
Arguments totalQuantity {K} _.
Arguments totalRevenue {K} _.

(** One document enters [$group]: its quantity and price are added to the
    group of its key, which is opened when the key is new. *)
Fixpoint group_add {K} `{EqDecision K} (k : K) (q r : Z) (gs : list (Group K)) :
    list (Group K) :=
  match gs with
  | [] => [mkGroup k q r]
  | g :: gs' =>
      if decide (_id g = k)
      then mkGroup k (totalQuantity g + q) (totalRevenue g + r) :: gs'
      else g :: group_add k q r gs'
  end.

(** [$group: { _id: key, totalQuantity: { $sum: '$quantity' },
              totalRevenue: { $sum: '$totalPrice' } }] *)
Definition group_stage {K} `{EqDecision K} (key : Date → K) (l : list (Date * Sale)) :
    list (Group K) :=
  foldl (λ gs ds, group_add (key ds.1) (quantity ds.2) (totalPrice ds.2) gs) [] l.

(** Ascending comparison on the fields named by [$sort], first field first. *)
Fixpoint lex_leb (a b : list Z) : bool :=
  match a, b with
  | [], _ => true
  | _ :: _, [] => false
  | x :: a', y :: b' => (x <? y) || ((x =? y) && lex_leb a' b')
  end.

(** [$sort: { f1: 1, f2: 1, ... }], [fields] giving the values of
    [f1, f2, ...] in a group key. *)
Definition sorts_before {K} (fields : K → list Z) (g h : Group K) : Prop :=
  lex_leb (fields (_id g)) (fields (_id h)) = true.

Global Instance sorts_before_dec {K} (fields : K → list Z) : RelDecision (sorts_before fields).
Proof. intros g h. unfold sorts_before. apply bool_eq_dec. Defined.

Definition sort_stage {K} (fields : K → list Z) (gs : list (Group K)) : list (Group K) :=
  merge_sort (sorts_before fields) gs.

(** [$group: { _id: null, total: { $sum: 1 } }] then [$project: { _id: 0 }]:
    one document with the count, and none at all for an empty input. *)
Record TotalRow := mkTotalRow { total : Z }.

Definition count_stage {A} (l : list A) : list TotalRow :=
  match l with
  | [] => []
  | _ :: _ => [mkTotalRow (Z.of_nat (length l))]
  end.

(** The documents leaving the [$project] stage of the four rollups. *)
Module Weeks.
Record Row := mkRow { week : Z; year : Z; totalQuantity : Z; totalRevenue : Z }.
End Weeks.
Module Years.
Record Row := mkRow { year : Z; totalQuantity : Z; totalRevenue : Z }.
End Years.
Module Days.
Record Row := mkRow { day : Z; month : Z; year : Z; totalQuantity : Z; totalRevenue : Z }.
End Days.
Module Months.
Record Row := mkRow { month : Z; year : Z; totalQuantity : Z; totalRevenue : Z }.
End Months.

(** The answer of [readAll]. *)
Record Page := mkPage {
  data : list Sale;
  totalCount : list TotalRow
}.

(** ** SaleServices *)

Module SaleServices.

Section create.
Variable env : Deployment.

Definition create (payload : Sale) (userId : ObjectId) : M (list Sale) :=
  let productPrice := productPrice payload in
  let quantity := quantity payload in
  let payload := set_user userId payload in
  let payload := set_totalPrice (productPrice * quantity) payload in
  found ← Product_findById (product payload);
  match found with
  | None => throw (CustomError 400 "Product not found")
  | Some p =>
      if js_gt quantity (get p "stock")
      then throw (CustomError 400 (pretty quantity ++ " products are not available in stock!"))
      else
        let session := replicaSet env in
        try_transaction session
          (Product_findByIdAndUpdate_inc (inc_error env) (product payload) "stock" (- quantity);;
           result ← Sale_create (sale_schema env) payload;
           if bool_decide (length result = 0%nat)
           then throw (CustomError 400 "Failed to create sale")
           else ret result)
          (λ e, CustomError 400 ("Sale create failed: " ++ message_or_unknown e))
  end.
End create.

Section reporting.
(** The pattern compiler of the server for [$regex] with [$options: 'i']
    ([None] for a pattern it rejects), the pipeline stages built by
    [sortAndPaginatePipeline] (lib/sortAndPaginate.pipeline, not part of the
    sources), and the date operators of the aggregation framework. *)
Variable regex_i : string → option (string → bool).
Variable sortAndPaginatePipeline : doc → list Sale → list Sale.
Variables isoWeek isoWeekYear year month dayOfMonth : Date → Z.

Definition readAll (query : doc) (userId : ObjectId) : M Page :=
  let search := if truthy (get query "search") then get query "search" else VStr "" in
  data ← Sale_aggregate (λ l,
    match search with
    | VStr search =>
        match regex_i search with
        | Some re =>
            inr (sortAndPaginatePipeline query
                   (filter (λ s, user s = userId ∧
                                 (re (productName s) || re (buyerName s)) = true) l))
        | None => inl "Regular expression is invalid"
        end
    | _ => inl "$regex has to be a string"
    end);
  totalCount ← Sale_aggregate (λ l,
    inr (count_stage (filter (λ s, user s = userId) l)));
  mret (mkPage data totalCount).

Definition readAllWeeks (userId : ObjectId) : M (list Weeks.Row) :=
  Sale_aggregate (λ l,
    inr ((λ g, match _id g with (week, year) =>
                 Weeks.mkRow week year (totalQuantity g) (totalRevenue g) end)
         <$> sort_stage (λ '(week, year), [year; week])
               (group_stage (λ d, (isoWeek d, isoWeekYear d))
                  (match_user_dated userId l)))).

Definition readAllYearly (userId : ObjectId) : M (list Years.Row) :=
  Sale_aggregate (λ l,
    inr ((λ g, Years.mkRow (_id g) (totalQuantity g) (totalRevenue g))
         <$> sort_stage (λ year, [year])
               (group_stage (λ d, year d)
                  (match_user_dated userId l)))).

Definition readAllDaily (userId : ObjectId) : M (list Days.Row) :=
  Sale_aggregate (λ l,
    inr ((λ g, match _id g with (day, month, year) =>
                 Days.mkRow day month year (totalQuantity g) (totalRevenue g) end)
         <$> sort_stage (λ '(day, month, year), [year; month; day])
               (group_stage (λ d, (dayOfMonth d, month d, year d))
                  (match_user_dated userId l)))).

Definition readAllMonths (userId : ObjectId) : M (list Months.Row) :=
  Sale_aggregate (λ l,
    inr ((λ g, match _id g with (month, year) =>
                 Months.mkRow month year (totalQuantity g) (totalRevenue g) end)
         <$> sort_stage (λ '(month, year), [year; month])
               (group_stage (λ d, (month d, year d))
                  (match_user_dated userId l)))).
End reporting.

End SaleServices.

(** ** ProductServices *)

(** [Product.create([payload])]: the created document gets a fresh [_id]; a
    created document is returned as the pair of its [_id] and its fields. *)
Definition Product_create (schema : doc → option string) (payload : doc) :
    M (list (ObjectId * doc)) := λ st,
  match schema payload with
  | None =>
      let id := fresh (dom (products st)) in
      (Return [(id, payload)], set_products <[id := payload]> st)
  | Some m => (Throw (DriverError m), st)
  end.

(** [Purchase.create([record])] *)
Definition Purchase_create (schema : doc → option string) (record : doc) : M (list doc) := λ st,
  match schema record with
  | None => (Return [record], set_purchases (λ l, l ++ [record]) st)
  | Some m => (Throw (DriverError m), st)
  end.

(** The object literal handed to [Purchase.create] by both services. *)
Definition purchase_record (user seller product sellerName productName
    quantity unitPrice totalPrice : value) : doc :=
  list_to_map
    [("user", user); ("seller", seller); ("product", product);
     ("sellerName", sellerName); ("productName", productName);
     ("quantity", quantity); ("unitPrice", unitPrice); ("totalPrice", totalPrice)].

(** The payload of [addToStock]: [Pick<IProduct, 'seller' | 'stock'>]. *)
Record StockPayload := mkStockPayload {
  seller : ObjectId;
  stock : Z
}.

Module ProductServices.

(** [Object.keys(payload)] *)
Definition keys (payload : doc) : list string := (map_to_list payload).*1.

(** [Object.keys(payload).forEach((key) => { if (!payload[key]) delete payload[key]; })] *)
Definition remove_empty_fields (payload : doc) : doc :=
  foldl (λ p key, if truthy (get p key) then p else delete key p) payload (keys payload).

Section services.
Variable env : Deployment.

(** An operation that carries the session of a started transaction: a
    server that is not a replica set member refuses it. *)
Definition in_transaction {A} (m : M A) : M A :=
  if replicaSet env then m
  else throw (DriverError "Transaction numbers are only allowed on a replica set member or mongos").

Definition create (payload : doc) (userId : ObjectId) : M (list (ObjectId * doc)) :=
  let payload := remove_empty_fields payload in
  let payload := <["user" := VId userId]> payload in
  let session := replicaSet env in
  try_transaction session
    (found ← Seller_findById (get payload "seller");
     match found with
     | None => throw (CustomError 400 "Seller not found")
     | Some seller =>
         product ← Product_create (product_schema env) payload;
         match product with
         | [] => throw (CustomError 400 "Failed to create product")
         | (product0_id, product0) :: _ =>
             Purchase_create (purchase_schema env)
               (purchase_record (VId userId) (get product0 "seller") (VId product0_id)
                  (get seller "name") (get product0 "name")
                  (get product0 "stock") (get product0 "price")
                  (js_mul (get product0 "stock") (get product0 "price")));;
             ret product
         end
     end)
    (λ e, CustomError 400 ("Product create failed: " ++ message_or_unknown e)).

(** [this.model.findOne({ user, _id: id })], the query of [read]. *)
Definition findOne_user_id (userId id : ObjectId) : M (option doc) := λ st,
  (Return (d ← products st !! id;
           if decide (d !! "user" = Some (VId userId)) then Some d else None), st).

(** [read]; [_isExists] belongs to the base class, which is not part of
    the sources, and is a parameter. *)
Definition read (_isExists : ObjectId → M ()) (id userId : ObjectId) : M (option doc) :=
  _isExists id;;
  findOne_user_id userId id.

(** [deleteMany({ _id: { $in: data } })] answers with the number of
    documents deleted. *)
Definition bulkDelete (payload : list ObjectId) : M nat := λ st,
  let data := payload in
  (Return (size (filter (λ kv, kv.1 ∈ data) (products st))),
   set_products (filter (λ kv, kv.1 ∉ data)) st).

(** [$sum] adds the numbers it meets, ignores what is not a number, and is
    NaN once it has met NaN. *)
Definition sum_add (v acc : value) : value :=
  match v, acc with
  | VNaN, _ | VNum _, VNaN => VNaN
  | VNum n, VNum a => VNum (n + a)
  | _, _ => acc
  end.

(** A document leaving the pipeline of [countTotalProduct]. *)
Record QuantityRow := mkQuantityRow { totalQuantity : value }.

(** [$match: { user }], [$group: { _id: null, totalQuantity: { $sum: '$stock' } }],
    [$project: { totalQuantity: 1, _id: 0 }]: one document with the sum over
    the products of the user, and none when the user has no product. *)
Definition countTotalProduct (userId : ObjectId) : M (list QuantityRow) := λ st,
  let matched :=
    filter (λ d : doc, d !! "user" = Some (VId userId)) (map_to_list (products st)).*2 in
  (Return (match matched with
           | [] => []
           | _ :: _ => [mkQuantityRow (foldr sum_add (VNum 0) ((λ d, get d "stock") <$> matched))]
           end), st).

Definition addToStock (id : ObjectId) (payload : StockPayload) (userId : ObjectId) : M doc :=
  try_transaction true
    (found ← Seller_findById (VId (seller payload));
     updated ← in_transaction
       (Product_findByIdAndUpdate_inc (inc_error env) id "stock" (stock payload));
     match updated with
     | None => throw (TypeError "Cannot read properties of null (reading 'seller')")
     | Some product =>
         in_transaction
           (Purchase_create (purchase_schema env)
              (purchase_record (VId userId) (get product "seller") (VId id)
                 (from_option (λ s, get s "name") VUndefined found)
                 (get product "name")
                 (Number (get product "stock")) (Number (get product "price"))
                 (js_mul (Number (get product "stock")) (Number (get product "price")))));;
         ret product
     end)
    (λ _, CustomError 400 "Product create failed").
End services.

End ProductServices.

(** * Vocabulary of the statements *)

(** Every product of the store carries a stock that is a number and is not
    negative. *)
Definition stock_nonneg (st : Store) : Prop :=
  map_Forall (λ _ p, ∃ s, num_field p "stock" = Some s ∧ 0 ≤ s) (products st).

(** The sale that [SaleServices.create] inserts for a payload. *)
Definition sale_of (payload : Sale) (userId : ObjectId) : Sale :=
  set_totalPrice (productPrice payload * quantity payload) (set_user userId payload).

(** The errors thrown by the two [catch] blocks. *)
Definition sale_failed (e : error) : error :=
  CustomError 400 ("Sale create failed: " ++ message_or_unknown e).

Definition product_failed (e : error) : error :=
  CustomError 400 ("Product create failed: " ++ message_or_unknown e).

(** A call failed: it threw an error of status 400. *)
Definition failed_400 {A} (r : outcome A) : Prop :=
  ∃ m, r = Throw (CustomError 400 m).

(** The product document and the purchase record that
    [ProductServices.create] builds from a payload. *)
Definition product_of (payload : doc) (userId : ObjectId) : doc :=
  <["user" := VId userId]> (ProductServices.remove_empty_fields payload).

Definition purchase_of (userId id : ObjectId) (seller product : doc) : doc :=
  purchase_record (VId userId) (get product "seller") (VId id)
    (get seller "name") (get product "name")
    (get product "stock") (get product "price")
    (js_mul (get product "stock") (get product "price")).

(** The seller a product document refers to, as [Seller.findById] finds it. *)
Definition seller_of (product : doc) (st : Store) : option doc :=
  match get product "seller" with VId i => sellers st !! i | _ => None end.

(** A call is atomic when a run that throws leaves the store it started
    from. *)
Definition atomic {A} (call : M A) : Prop :=
  ∀ st e st', call st = (Throw e, st') → st' = st.

(** The purchase record that [ProductServices.addToStock] builds from the
    document returned by the update and the seller found. *)
Definition stock_purchase_of (userId id : ObjectId) (found : option doc) (product : doc) : doc :=
  purchase_record (VId userId) (get product "seller") (VId id)
    (from_option (λ s, get s "name") VUndefined found) (get product "name")
    (Number (get product "stock")) (Number (get product "price"))
    (js_mul (Number (get product "stock")) (Number (get product "price"))).

(** Sums of the quantities and prices of a list of sales. *)
Definition Zsum (l : list Z) : Z := foldr Z.add 0 l.

(** A sale of the user whose date falls in the period with key [k]. *)
Definition in_period {K} (key : Date → K) (userId : ObjectId) (k : K) (s : Sale) : Prop :=
  user s = userId ∧ key <$> date s = Some k.

Global Instance in_period_dec {K} `{EqDecision K} (key : Date → K) (userId : ObjectId)
  (k : K) (s : Sale) : Decision (in_period key userId k s).
Proof. unfold in_period. apply _. Defined.

(** [rows] is the rollup of the sales [l] of a user by the calendar key
    [key]: the rows are in strictly ascending order of their keys (so no key
    comes twice), every dated sale of the user has a row for its period, and
    every row stands for a period with at least one such sale and carries
    the sums of the quantities and of the total prices of the sales of its
    period. *)
Definition is_rollup {K R} `{EqDecision K} (key : Date → K) (before : K → K → Prop)
    (row_key : R → K) (row_quantity row_revenue : R → Z)
    (userId : ObjectId) (l : list Sale) (rows : list R) : Prop :=
  StronglySorted (λ a b, before (row_key a) (row_key b)) rows
  ∧ (∀ s d, s ∈ l → user s = userId → date s = Some d →
       ∃ r, r ∈ rows ∧ row_key r = key d)
  ∧ (∀ r, r ∈ rows →
       filter (in_period key userId (row_key r)) l ≠ []
       ∧ row_quantity r = Zsum (quantity <$> filter (in_period key userId (row_key r)) l)
       ∧ row_revenue r = Zsum (totalPrice <$> filter (in_period key userId (row_key r)) l)).

(** The orders asked for by the four [$sort] stages, on the group keys
    (week, year), year, (day, month, year) and (month, year). *)
Definition week_before (a b : Z * Z) : Prop :=
  a.2 < b.2 ∨ (a.2 = b.2 ∧ a.1 < b.1).

Definition year_before (a b : Z) : Prop := a < b.

Definition day_before (a b : Z * Z * Z) : Prop :=
  a.2 < b.2 ∨ (a.2 = b.2 ∧ (a.1.2 < b.1.2 ∨ (a.1.2 = b.1.2 ∧ a.1.1 < b.1.1))).

Definition month_before (a b : Z * Z) : Prop :=
  a.2 < b.2 ∨ (a.2 = b.2 ∧ a.1 < b.1).

(** What a list of groups says about a key. *)
Fixpoint totals {K} `{EqDecision K} (gs : list (Group K)) (k : K) : option (Z * Z) :=
  match gs with
  | [] => None
  | g :: gs' =>
      if decide (_id g = k) then Some (totalQuantity g, totalRevenue g) else totals gs' k
  end.

(** The documents entering [$group] that have the key [k]. *)
Definition bucket {K} `{EqDecision K} (key : Date → K) (k : K)
    (docs : list (Date * Sale)) : list (Date * Sale) :=
  filter (λ ds, key ds.1 = k) docs.

(** The pattern [readAll] searches for, and the sales of a user that match
    a compiled pattern on the product name or the buyer name. *)
Definition search_of (query : doc) : value :=
  if truthy (get query "search") then get query "search" else VStr "".

Definition matching (re : string → bool) (userId : ObjectId) (l : list Sale) : list Sale :=
  filter (λ s, user s = userId ∧ (re (productName s) || re (buyerName s)) = true) l.

Definition owned (userId : ObjectId) (l : list Sale) : list Sale :=
  filter (λ s, user s = userId) l.

(** The count carried by the answer of the counting pipeline: the [total] of
    its document, and 0 when it has none. *)
Definition count_of (rows : list TotalRow) : Z := Zsum (total <$> rows).

(** The units of a product that the recorded sales say were sold, and the
    stock the store has for a product id. *)
Definition sold (id : ObjectId) (l : list Sale) : Z :=
  Zsum (quantity <$> filter (λ s, product s = id) l).

Definition on_hand (id : ObjectId) (st : Store) : option Z :=
  p ← products st !! id; num_field p "stock".

(** The products of a user, and the sum of their numeric stocks. *)
Definition products_of (userId : ObjectId) (st : Store) : list doc :=
  filter (λ d : doc, d !! "user" = Some (VId userId)) (map_to_list (products st)).*2.

Definition stock_total (userId : ObjectId) (st : Store) : Z :=
  Zsum ((λ d, default 0 (num_field d "stock")) <$> products_of userId st).

(** The sales of a user that carry a date: the documents the rollups are
    built from. *)
Definition dated_sales (userId : ObjectId) (l : list Sale) : list Sale :=
  filter (λ s, user s = userId ∧ is_Some (date s)) l.

(** ** Data of the examples *)

(** Deployments, stores and payloads used by the examples. *)
Definition replica_set : Deployment :=
  mkDeployment true (λ _, None) (λ _, None) (λ _, None) "Cannot apply $inc to a value of non-numeric type".

Definition standalone_strict : Deployment :=
  mkDeployment false (λ _, Some "Sale validation failed") (λ _, None)
    (λ _, Some "Purchase validation failed")
    "Cannot apply $inc to a value of non-numeric type".

Definition widget : doc :=
  {[ "name" := VStr "widget"; "price" := VNum 5; "stock" := VNum 10;
     "seller" := VId 7%N; "user" := VId 8%N ]}.

Definition shop : Store :=
  mkStore {[ 1%N := widget ]} {[ 7%N := {[ "name" := VStr "acme" ]} ]} [] [].

Definition gadget (price : Z) : doc :=
  {[ "name" := VStr "gadget"; "price" := VNum price; "stock" := VNum 6;
     "seller" := VId 7%N ]}.

Definition order (q : Z) : Sale :=
  mkSale 1%N "widget" 5 q "bob" None 0%N 0.

(** A stand-in for the pattern compiler in the examples: plain substring
    search. *)
Definition substring_match (pattern : string) : option (string → bool) :=
  Some (λ subject, bool_decide (is_Some (String.index 0 pattern subject))).

Definition ledger : Store :=
  mkStore {[ 1%N := widget ]} {[ 7%N := {[ "name" := VStr "acme" ]} ]}
    [ mkSale 1%N "widget" 5 2 "bob" (Some 20240108) 9%N 10;
      mkSale 1%N "gadget" 4 1 "eve" (Some 20240109) 9%N 4;
      mkSale 1%N "widget" 5 3 "ann" (Some 20231225) 9%N 15;
      mkSale 1%N "widget" 5 7 "joe" (Some 20240108) 8%N 35;
      mkSale 1%N "widget" 5 1 "sam" None 9%N 5 ] [].

Definition bouquet (stock : Z) : doc :=
  {[ "name" := VStr "bouquet"; "price" := VNum 3; "stock" := VNum stock;
     "seller" := VId 7%N ]}.

(** * Properties *)

(** ** Values and documents *)

Lemma num_field_lookup (d : doc) (k : string) (n : Z) :
  num_field d k = Some n ↔ d !! k = Some (VNum n).
Proof.
  unfold num_field. destruct (d !! k) as [[]|]; naive_solver.
Qed.

Lemma inc_field_num (d : doc) (k : string) (a n : Z) :
  num_field d k = Some n → inc_field k a d = Some (<[k := VNum (n + a)]> d).
Proof. rewrite num_field_lookup. unfold inc_field. by intros ->. Qed.

Lemma num_field_insert_eq (d : doc) (k : string) (n : Z) :
  num_field (<[k := VNum n]> d) k = Some n.
Proof. apply num_field_lookup, lookup_insert_eq. Qed.

(** ** SaleServices.create *)

Section sale_create.
Context (env : Deployment).

(** [create], one case per path through the function. *)
Lemma create_cases (payload : Sale) (userId : ObjectId) (st : Store) :
  SaleServices.create env payload userId st =
  match products st !! product payload with
  | None => (Throw (CustomError 400 "Product not found"), st)
  | Some p =>
      if js_gt (quantity payload) (get p "stock")
      then (Throw (CustomError 400
              (pretty (quantity payload) ++ " products are not available in stock!")), st)
      else
        match inc_field "stock" (- quantity payload) p with
        | None => (Throw (sale_failed (DriverError (inc_error env))), st)
        | Some p' =>
            let st1 := set_products <[product payload := p']> st in
            match sale_schema env (sale_of payload userId) with
            | None =>
                (Return [sale_of payload userId],
                 set_sales (λ l, l ++ [sale_of payload userId]) st1)
            | Some m =>
                (Throw (sale_failed (DriverError m)),
                 if replicaSet env then st else st1)
            end
        end
  end.
Proof.
  unfold SaleServices.create, mbind, M_bind, bind, Product_findById,
    try_transaction, Product_findByIdAndUpdate_inc, Sale_create, sale_of.
  simpl. destruct (products st !! product payload) as [p|] eqn:Hp; [|done].
  destruct (js_gt _ _); [done|]. simpl. rewrite Hp.
  destruct (inc_field _ _ _) as [p'|]; [|by destruct (replicaSet env)].
  simpl. destruct (sale_schema env _); done.
Qed.

Lemma js_gt_num (q s : Z) (p : doc) :
  num_field p "stock" = Some s → js_gt q (get p "stock") = bool_decide (s < q).
Proof.
  intros Hs%num_field_lookup. unfold js_gt, get. rewrite Hs. simpl.
  destruct (Z.ltb_spec s q).
  - by rewrite bool_decide_eq_true_2.
  - rewrite bool_decide_eq_false_2; [done|lia].
Qed.

Lemma create_stock_nonneg (payload : Sale) (userId : ObjectId) (st : Store) :
  stock_nonneg st → stock_nonneg (SaleServices.create env payload userId st).2.
Proof.
  intros Hst. rewrite create_cases.
  destruct (products st !! product payload) as [p|] eqn:Hp; [|done].
  destruct (Hst _ _ Hp) as (s & Hs & Hs0).
  rewrite (js_gt_num _ s) by done. case_bool_decide as Hq; [done|].
  rewrite (inc_field_num _ _ _ s) by done.
  assert (stock_nonneg (set_products <[product payload :=
            <["stock" := VNum (s + - quantity payload)]> p]> st)) as Hst1.
  { unfold stock_nonneg. simpl. apply map_Forall_insert_2; [|done].
    eexists. split; [apply num_field_insert_eq|lia]. }
  simpl. destruct (sale_schema env _); [by destruct (replicaSet env)|done].
Qed.

(** X24: the stock guard on a product that carries a numeric stock.  When
    the quantity asked for is above that stock, the call throws the 400
    error of the guard and the store is the one it started from (no sale, no
    decrement); whatever the call does, a stock that was not negative is not
    negative afterwards, the other products are untouched, and a store whose
    products all carry a non-negative numeric stock stays so. *)
Theorem create_rejects_quantity_above_stock
    (payload : Sale) (userId : ObjectId) (st : Store) (p : doc) (s : Z) :
  products st !! product payload = Some p →
  num_field p "stock" = Some s →
  (s < quantity payload →
     SaleServices.create env payload userId st =
       (Throw (CustomError 400
          (pretty (quantity payload) ++ " products are not available in stock!")), st))
  ∧ (0 ≤ s → ∃ p' s',
       products (SaleServices.create env payload userId st).2 !! product payload = Some p'
       ∧ num_field p' "stock" = Some s' ∧ 0 ≤ s')
  ∧ (∀ id, id ≠ product payload →
       products (SaleServices.create env payload userId st).2 !! id = products st !! id)
  ∧ (stock_nonneg st → stock_nonneg (SaleServices.create env payload userId st).2).
Proof.
  intros Hp Hs. rewrite create_cases, Hp, (js_gt_num _ s) by done.
  split; [|split; [|split]].
  - intros Hq. by rewrite bool_decide_eq_true_2.
  - intros Hs0. case_bool_decide as Hq; [by eauto|].
    rewrite (inc_field_num _ _ _ s) by done.
    assert (0 ≤ s + - quantity payload) by lia.
    simpl. destruct (sale_schema env _); [destruct (replicaSet env)|]; simpl;
      rewrite ?lookup_insert_eq; eauto using num_field_insert_eq.
  - intros id Hid. case_bool_decide; [done|].
    rewrite (inc_field_num _ _ _ s) by done.
    simpl. destruct (sale_schema env _); [destruct (replicaSet env)|]; simpl;
      by rewrite ?lookup_insert_ne.
  - intros Hst. pose proof (create_stock_nonneg payload userId st Hst) as H.
    by rewrite create_cases, Hp, (js_gt_num _ s) in H.
Qed.

End sale_create.

Lemma create_rejects_quantity_above_stock_witness :
  SaleServices.create replica_set (order 13) 9%N shop =
    (Throw (CustomError 400 "13 products are not available in stock!"), shop)
  ∧ stock_nonneg (SaleServices.create replica_set (order 3) 9%N shop).2.
Proof.
  split.
  - apply (create_rejects_quantity_above_stock replica_set (order 13) 9%N shop widget 10);
      [reflexivity|reflexivity|reflexivity].
  - apply (create_rejects_quantity_above_stock replica_set (order 3) 9%N shop widget 10);
      [reflexivity|reflexivity|].
    intros i x. unfold shop. simpl. intros [<- <-]%lookup_singleton_Some.
    exists 10. split; [reflexivity|lia].
Defined.

Section sale_create_results.
Context (env : Deployment).

(** C3: on an existing product whose stock covers the quantity, the call
    returns as soon as the sale passes the schema, and a call that returns
    has replaced the stock by the stock minus the quantity, left the other
    fields of the product and the rest of the store alone, and appended
    one sale, of total price [productPrice * quantity] and of the calling
    user. *)
Theorem create_decrements_stock_and_inserts_sale
    (payload : Sale) (userId : ObjectId) (st : Store) (p : doc) (s : Z) :
  products st !! product payload = Some p →
  num_field p "stock" = Some s →
  quantity payload ≤ s →
  (sale_schema env (sale_of payload userId) = None →
     ∃ result st', SaleServices.create env payload userId st = (Return result, st'))
  ∧ (∀ result st',
       SaleServices.create env payload userId st = (Return result, st') →
       ∃ sale,
         result = [sale]
         ∧ sales st' = sales st ++ [sale]
         ∧ totalPrice sale = productPrice payload * quantity payload
         ∧ user sale = userId
         ∧ product sale = product payload
         ∧ quantity sale = quantity payload
         ∧ products st' =
             <[product payload := <["stock" := VNum (s - quantity payload)]> p]> (products st)
         ∧ sellers st' = sellers st
         ∧ purchases st' = purchases st).
Proof.
  intros Hp Hs Hq. rewrite create_cases, Hp, (js_gt_num _ s) by done.
  rewrite bool_decide_eq_false_2 by lia.
  rewrite (inc_field_num _ _ _ s) by done. simpl.
  replace (s + - quantity payload) with (s - quantity payload) by lia.
  split.
  - intros ->. eauto.
  - intros result st'. destruct (sale_schema env _); [done|].
    intros [= <- <-]. exists (sale_of payload userId). by repeat split.
Qed.

(** C7: a sale is only ever inserted for a product that exists, with the
    calling user as its owner: without the product the call throws
    400 'Product not found' and the store is untouched; a call that returns
    has appended exactly one sale, whose user is the caller and whose
    product is in the store before and after; a call that throws has added
    no sale. *)
Theorem create_references_product_and_user
    (payload : Sale) (userId : ObjectId) (st : Store) :
  (products st !! product payload = None →
     SaleServices.create env payload userId st =
       (Throw (CustomError 400 "Product not found"), st))
  ∧ (∀ r st',
       SaleServices.create env payload userId st = (r, st') →
       match r with
       | Return result =>
           ∃ sale,
             result = [sale]
             ∧ sales st' = sales st ++ [sale]
             ∧ user sale = userId
             ∧ product sale = product payload
             ∧ is_Some (products st !! product sale)
             ∧ is_Some (products st' !! product sale)
       | Throw _ => sales st' = sales st
       end).
Proof.
  rewrite create_cases. split; [by intros ->|].
  intros r st'. destruct (products st !! product payload) as [p|] eqn:Hp; [|by intros [= <- <-]].
  destruct (js_gt _ _); [by intros [= <- <-]|].
  destruct (inc_field _ _ _) as [p'|]; [|by intros [= <- <-]].
  simpl. destruct (sale_schema env _).
  - intros [= <- <-]. by destruct (replicaSet env).
  - intros [= <- <-]. exists (sale_of payload userId). simpl.
    rewrite Hp, lookup_insert_eq. by eauto 10.
Qed.
End sale_create_results.

Lemma create_decrements_stock_and_inserts_sale_witness :
  ∃ sale st',
    SaleServices.create replica_set (order 3) 9%N shop = (Return [sale], st')
    ∧ totalPrice sale = 15 ∧ user sale = 9%N
    ∧ products st' = <[1%N := <["stock" := VNum 7]> widget]> (products shop).
Proof.
  destruct (create_decrements_stock_and_inserts_sale replica_set (order 3) 9%N shop widget 10)
    as [Hret Hres]; [reflexivity|reflexivity|simpl; lia|].
  destruct (Hret eq_refl) as (result & st' & Hcreate).
  destruct (Hres result st' Hcreate) as (sale & -> & _ & Ht & Hu & _ & _ & Hp & _).
  exists sale, st'. by repeat split.
Defined.

Lemma create_references_product_and_user_witness :
  SaleServices.create replica_set (mkSale 2%N "gadget" 5 1 "bob" None 0%N 0) 9%N shop =
    (Throw (CustomError 400 "Product not found"), shop).
Proof.
  apply (create_references_product_and_user replica_set
           (mkSale 2%N "gadget" 5 1 "bob" None 0%N 0) 9%N shop).
  reflexivity.
Defined.

(** ** ProductServices.create *)

Lemma get_delete_ne (d : doc) (j k : string) : j ≠ k → get (delete j d) k = get d k.
Proof. intros. unfold get. by rewrite lookup_delete_ne. Qed.

(** The loop over a list of keys: a key of the list keeps its field exactly
    when the value is truthy; fields outside the list are kept. *)
Lemma remove_loop_lookup (l : list string) (p : doc) (k : string) :
  foldl (λ p key, if truthy (get p key) then p else delete key p) p l !! k =
  if decide (k ∈ l) then (if truthy (get p k) then p !! k else None) else p !! k.
Proof.
  revert p. induction l as [|a l IH]; intros p; cbn [foldl].
  { destruct (decide (k ∈ [])) as [Hin|_]; [by apply elem_of_nil in Hin|done]. }
  rewrite IH. destruct (decide (k = a)) as [->|Hka].
  - destruct (decide (a ∈ a :: l)) as [_|Hin]; [|by destruct Hin; apply elem_of_cons; left].
    destruct (truthy (get p a)) eqn:Ht.
    + rewrite Ht. by destruct (decide (a ∈ l)).
    + unfold get at 1. rewrite lookup_delete_eq. simpl. by destruct (decide (a ∈ l)).
  - assert ((if truthy (get p a) then p else delete a p) !! k = p !! k) as Hk.
    { destruct (truthy (get p a)); [done|by rewrite lookup_delete_ne]. }
    assert (get (if truthy (get p a) then p else delete a p) k = get p k) as Hg.
    { destruct (truthy (get p a)); [done|by apply get_delete_ne]. }
    rewrite Hk, Hg.
    destruct (decide (k ∈ l)) as [Hl|Hl], (decide (k ∈ a :: l)) as [Hal|Hal]; try done.
    + destruct Hal. apply elem_of_cons. by right.
    + by apply elem_of_cons in Hal as [?|?].
Qed.

Lemma remove_empty_fields_lookup (payload : doc) (k : string) :
  ProductServices.remove_empty_fields payload !! k =
  if truthy (get payload k) then payload !! k else None.
Proof.
  unfold ProductServices.remove_empty_fields. rewrite remove_loop_lookup.
  destruct (decide (k ∈ ProductServices.keys payload)) as [Hk|Hk]; [done|].
  assert (payload !! k = None) as Hnone.
  { apply eq_None_not_Some. intros [v Hv]. apply Hk.
    unfold ProductServices.keys. apply list_elem_of_fmap. exists (k, v).
    split; [done|]. by apply elem_of_map_to_list. }
  unfold get. by rewrite Hnone.
Qed.

Section product_create.
Context (env : Deployment).

(** [create], one case per path through the function. *)
Lemma product_create_cases (payload : doc) (userId : ObjectId) (st : Store) :
  ProductServices.create env payload userId st =
  let product := product_of payload userId in
  match seller_of product st with
  | None => (Throw (CustomError 400 "Product create failed: Seller not found"), st)
  | Some seller =>
      match product_schema env product with
      | Some m => (Throw (product_failed (DriverError m)), st)
      | None =>
          let id := fresh (dom (products st)) in
          let st1 := set_products <[id := product]> st in
          match purchase_schema env (purchase_of userId id seller product) with
          | None =>
              (Return [(id, product)],
               set_purchases (λ l, l ++ [purchase_of userId id seller product]) st1)
          | Some m =>
              (Throw (product_failed (DriverError m)),
               if replicaSet env then st else st1)
          end
      end
  end.
Proof.
  unfold ProductServices.create, mbind, M_bind, bind, Seller_findById,
    try_transaction, Product_create, Purchase_create, seller_of, product_of, purchase_of.
  simpl.
  destruct (match get _ "seller" with VId i => sellers st !! i | _ => None end) as [seller|];
    [|by destruct (replicaSet env)].
  destruct (product_schema env _); [by destruct (replicaSet env)|].
  simpl. destruct (purchase_schema env _); done.
Qed.

Lemma purchase_of_fields (userId id : ObjectId) (seller product : doc) :
  get (purchase_of userId id seller product) "user" = VId userId
  ∧ get (purchase_of userId id seller product) "seller" = get product "seller"
  ∧ get (purchase_of userId id seller product) "product" = VId id
  ∧ get (purchase_of userId id seller product) "sellerName" = get seller "name"
  ∧ get (purchase_of userId id seller product) "productName" = get product "name"
  ∧ get (purchase_of userId id seller product) "quantity" = get product "stock"
  ∧ get (purchase_of userId id seller product) "unitPrice" = get product "price"
  ∧ get (purchase_of userId id seller product) "totalPrice" =
      js_mul (get product "stock") (get product "price").
Proof. by repeat split. Qed.

(** C4: a call that returns has inserted the product under a new id and
    appended one purchase record, which names the new product, the seller
    of the product (who exists) and the caller, and carries the stock of
    the product as quantity, its price as unit price and their product as
    total price; when the seller named by the payload does not exist the
    call throws a 400 error and the store is untouched. *)
Theorem create_inserts_product_and_purchase
    (payload : doc) (userId : ObjectId) (st : Store) :
  (∀ result st',
     ProductServices.create env payload userId st = (Return result, st') →
     ∃ id product seller record,
       result = [(id, product)]
       ∧ product = product_of payload userId
       ∧ products st !! id = None
       ∧ products st' = <[id := product]> (products st)
       ∧ seller_of product st = Some seller
       ∧ purchases st' = purchases st ++ [record]
       ∧ get record "product" = VId id
       ∧ get record "seller" = get product "seller"
       ∧ get record "user" = VId userId
       ∧ get record "quantity" = get product "stock"
       ∧ get record "unitPrice" = get product "price"
       ∧ get record "totalPrice" = js_mul (get product "stock") (get product "price")
       ∧ (∀ s p, num_field product "stock" = Some s → num_field product "price" = Some p →
            get record "quantity" = VNum s ∧ get record "unitPrice" = VNum p
            ∧ get record "totalPrice" = VNum (s * p))
       ∧ sellers st' = sellers st ∧ sales st' = sales st)
  ∧ (seller_of (product_of payload userId) st = None →
       ProductServices.create env payload userId st =
         (Throw (CustomError 400 "Product create failed: Seller not found"), st)).
Proof.
  rewrite product_create_cases. simpl. split; [|by intros ->].
  intros result st'. destruct (seller_of _ st) as [seller|] eqn:Hseller; [|done].
  destruct (product_schema env _); [done|].
  destruct (purchase_schema env _); [done|]. intros [= <- <-].
  eexists _, _, seller, _. simpl.
  destruct (purchase_of_fields userId (fresh (dom (products st))) seller
              (product_of payload userId)) as (H0&H1&H2&H3&_&H4&H5&H6).
  split_and!; try done.
  - apply not_elem_of_dom, is_fresh.
  - intros s p Hs%num_field_lookup Hp%num_field_lookup.
    rewrite H4, H5, H6. unfold get. by rewrite Hs, Hp.
Qed.

(** C9: the loop deletes exactly the fields whose value is falsy and keeps
    the others as they are; the document handed to the store, and stored
    when the call returns, has the caller as [user], has otherwise the
    truthy fields of the payload, holds no falsy value, and has no [price]
    (no [stock]) when the payload came with price 0 (stock 0). *)
Theorem create_drops_falsy_fields (payload : doc) (userId : ObjectId) (st : Store) :
  (∀ k, ProductServices.remove_empty_fields payload !! k =
        if truthy (get payload k) then payload !! k else None)
  ∧ (∀ result st',
       ProductServices.create env payload userId st = (Return result, st') →
       ∃ id product,
         result = [(id, product)]
         ∧ products st' !! id = Some product
         ∧ product !! "user" = Some (VId userId)
         ∧ (∀ k, k ≠ "user" →
              product !! k = if truthy (get payload k) then payload !! k else None)
         ∧ (∀ k v, product !! k = Some v → truthy v = true)
         ∧ (payload !! "price" = Some (VNum 0) → product !! "price" = None)
         ∧ (payload !! "stock" = Some (VNum 0) → product !! "stock" = None)).
Proof.
  split; [apply remove_empty_fields_lookup|].
  rewrite product_create_cases. simpl. intros result st'.
  destruct (seller_of _ st) as [seller|]; [|done].
  destruct (product_schema env _); [done|].
  destruct (purchase_schema env _); [done|]. intros [= <- <-].
  assert (∀ k, k ≠ "user" → product_of payload userId !! k =
            if truthy (get payload k) then payload !! k else None) as Hk.
  { intros k Hne. unfold product_of.
    by rewrite lookup_insert_ne, remove_empty_fields_lookup. }
  eexists _, _. simpl. repeat split; try done.
  - by rewrite lookup_insert_eq.
  - apply lookup_insert_eq.
  - intros k v. destruct (decide (k = "user")) as [->|Hne].
    + unfold product_of. rewrite lookup_insert_eq. by intros [= <-].
    + rewrite Hk by done. unfold get.
      destruct (payload !! k) as [w|] eqn:Hw; simpl; [|done].
      destruct (truthy w) eqn:Ht; [by intros [= <-]|done].
  - intros Hprice. rewrite Hk by done. unfold get. by rewrite Hprice.
  - intros Hstock. rewrite Hk by done. unfold get. by rewrite Hstock.
Qed.
End product_create.

Lemma create_inserts_product_and_purchase_witness :
  ∃ id product record st',
    ProductServices.create replica_set (gadget 4) 9%N shop = (Return [(id, product)], st')
    ∧ purchases st' = purchases shop ++ [record]
    ∧ get record "quantity" = VNum 6 ∧ get record "unitPrice" = VNum 4
    ∧ get record "totalPrice" = VNum 24.
Proof.
  set (call := ProductServices.create replica_set (gadget 4) 9%N shop).
  assert (call = (Return (match call.1 with Return r => r | Throw _ => [] end), call.2))
    as Hcall by (vm_compute; reflexivity).
  destruct (create_inserts_product_and_purchase replica_set (gadget 4) 9%N shop) as [Hret _].
  destruct (Hret _ _ Hcall)
    as (id & product & seller & record & Hres & -> & _ & _ & _ & Hp & _ & _ & _ & _ & _ & _ & Hnum & _).
  destruct (Hnum 6 4) as (? & ? & ?); [vm_compute; reflexivity|vm_compute; reflexivity|].
  exists id, (product_of (gadget 4) 9%N), record, call.2.
  rewrite <- Hres. by repeat split.
Defined.

Lemma create_drops_falsy_fields_witness :
  ∃ id product st',
    ProductServices.create replica_set (gadget 0) 9%N shop = (Return [(id, product)], st')
    ∧ products st' !! id = Some product
    ∧ product !! "price" = None.
Proof.
  set (call := ProductServices.create replica_set (gadget 0) 9%N shop).
  assert (call = (Return (match call.1 with Return r => r | Throw _ => [] end), call.2))
    as Hcall by (vm_compute; reflexivity).
  destruct (create_drops_falsy_fields replica_set (gadget 0) 9%N shop) as [_ Hret].
  destruct (Hret _ _ Hcall) as (id & product & Hres & Hid & _ & _ & _ & Hprice & _).
  exists id, product, call.2. rewrite <- Hres.
  split; [exact Hcall|]. split; [exact Hid|]. apply Hprice. vm_compute. reflexivity.
Defined.

(** ** Atomicity of the two creates *)

Section atomicity.
Context (env : Deployment).

Lemma sale_create_throws_400 (payload : Sale) (userId : ObjectId) (st st' : Store) (e : error) :
  SaleServices.create env payload userId st = (Throw e, st') → failed_400 (Throw (A:=()) e).
Proof.
  rewrite create_cases. unfold failed_400, sale_failed.
  repeat case_match; intros [= <- <-]; eauto.
Qed.

Lemma product_create_throws_400 (payload : doc) (userId : ObjectId) (st st' : Store) (e : error) :
  ProductServices.create env payload userId st = (Throw e, st') → failed_400 (Throw (A:=()) e).
Proof.
  rewrite product_create_cases. unfold failed_400, product_failed. simpl.
  repeat case_match; intros [= <- <-]; eauto.
Qed.

(** C2, as amended: a create that fails throws an error of status 400; on
    a deployment that provides the session (connection ready, replica set)
    both creates are atomic; without the session a failed sale create has
    at most decremented the stock and a failed product create has at most
    inserted the product. *)
Theorem creates_atomic_with_session :
  (∀ payload userId st e st',
     SaleServices.create env payload userId st = (Throw e, st') →
     failed_400 (Throw (A:=()) e))
  ∧ (∀ payload userId st e st',
       ProductServices.create env payload userId st = (Throw e, st') →
       failed_400 (Throw (A:=()) e))
  ∧ (replicaSet env = true →
       (∀ payload userId, atomic (SaleServices.create env payload userId))
       ∧ (∀ payload userId, atomic (ProductServices.create env payload userId)))
  ∧ (replicaSet env = false →
       (∀ payload userId st e st',
          SaleServices.create env payload userId st = (Throw e, st') →
          st' = st ∨
          ∃ p p', products st !! product payload = Some p
                  ∧ inc_field "stock" (- quantity payload) p = Some p'
                  ∧ st' = set_products <[product payload := p']> st)
       ∧ (∀ payload userId st e st',
            ProductServices.create env payload userId st = (Throw e, st') →
            st' = st ∨
            st' = set_products
                    <[fresh (dom (products st)) := product_of payload userId]> st)).
Proof.
  split; [|split; [|split]].
  - eauto using sale_create_throws_400.
  - eauto using product_create_throws_400.
  - intros Hrs. split; intros payload userId st e st'.
    + rewrite create_cases, Hrs. repeat case_match; by intros [= <- <-].
    + rewrite product_create_cases, Hrs. simpl. repeat case_match; by intros [= <- <-].
  - intros Hrs. split; intros payload userId st e st'.
    + rewrite create_cases, Hrs.
      destruct (products st !! product payload) as [p|] eqn:Hp; [|intros [= <- <-]; by left].
      destruct (js_gt _ _); [intros [= <- <-]; by left|].
      destruct (inc_field _ _ _) as [p'|] eqn:Hinc; [|intros [= <- <-]; by left].
      simpl. destruct (sale_schema env _); [|done].
      intros [= <- <-]. right. by exists p, p'.
    + rewrite product_create_cases, Hrs. simpl.
      repeat case_match; intros [= <- <-]; auto.
Qed.
End atomicity.

Lemma creates_atomic_with_session_witness :
  atomic (SaleServices.create replica_set (order 3) 9%N)
  ∧ atomic (ProductServices.create replica_set (gadget 4) 9%N).
Proof.
  destruct (creates_atomic_with_session replica_set) as (_ & _ & Hatomic & _).
  destruct (Hatomic eq_refl) as [Hsale Hproduct]. split; [apply Hsale|apply Hproduct].
Defined.

(** C2, as stated, fails without a replica set: the schema rejects the sale
    after the stock went from 10 to 7, and rejects the purchase record after
    the product was inserted; both calls throw and the write stays. *)
Lemma create_not_atomic_without_session :
  (∃ st',
     SaleServices.create standalone_strict (order 3) 9%N shop =
       (Throw (CustomError 400 "Sale create failed: Sale validation failed"), st')
     ∧ products st' !! 1%N = Some (<["stock" := VNum 7]> widget)
     ∧ sales st' = []
     ∧ ¬ atomic (SaleServices.create standalone_strict (order 3) 9%N))
  ∧ (∃ id st',
       ProductServices.create standalone_strict (gadget 4) 9%N shop =
         (Throw (CustomError 400 "Product create failed: Purchase validation failed"), st')
       ∧ products shop !! id = None
       ∧ products st' !! id = Some (product_of (gadget 4) 9%N)
       ∧ purchases st' = []
       ∧ ¬ atomic (ProductServices.create standalone_strict (gadget 4) 9%N)).
Proof.
  split.
  - eexists. split; [by rewrite create_cases|]. simpl.
    split; [by rewrite lookup_insert_eq|]. split; [done|].
    intros Hatomic. specialize (Hatomic shop _ _ (create_cases _ _ _ _)).
    simpl in Hatomic. apply (f_equal (λ st, products st !! 1%N)) in Hatomic.
    simpl in Hatomic. rewrite lookup_insert_eq in Hatomic.
    apply (f_equal (λ d, d ≫= (.!! "stock"))) in Hatomic. by vm_compute in Hatomic.
  - exists (fresh (dom (products shop))). eexists.
    split; [by rewrite product_create_cases|]. simpl.
    assert (products shop !! fresh (dom (products shop)) = None) as Hfresh
      by apply not_elem_of_dom, is_fresh.
    split; [done|]. split; [by rewrite lookup_insert_eq|]. split; [done|].
    intros Hatomic. specialize (Hatomic shop _ _ (product_create_cases _ _ _ _)).
    cbv zeta in Hatomic. cbn [replicaSet standalone_strict] in Hatomic.
    apply (f_equal (λ st, products st !! fresh (dom (products shop)))) in Hatomic.
    unfold set_products in Hatomic. cbn [products] in Hatomic.
    rewrite lookup_insert_eq in Hatomic. by rewrite Hfresh in Hatomic.
Qed.

(** ** ProductServices.addToStock *)

Section add_to_stock.
Context (env : Deployment).

(** [addToStock], one case per path through the function. *)
Lemma addToStock_cases (id : ObjectId) (payload : StockPayload) (userId : ObjectId) (st : Store) :
  ProductServices.addToStock env id payload userId st =
  if replicaSet env then
    match products st !! id with
    | None => (Throw (CustomError 400 "Product create failed"), st)
    | Some p =>
        match inc_field "stock" (stock payload) p with
        | None => (Throw (CustomError 400 "Product create failed"), st)
        | Some p' =>
            let record := stock_purchase_of userId id (sellers st !! seller payload) p in
            match purchase_schema env record with
            | None =>
                (Return p,
                 set_purchases (λ l, l ++ [record]) (set_products <[id := p']> st))
            | Some _ => (Throw (CustomError 400 "Product create failed"), st)
            end
        end
    end
  else (Throw (CustomError 400 "Product create failed"), st).
Proof.
  unfold ProductServices.addToStock, ProductServices.in_transaction, mbind, M_bind, bind,
    Seller_findById, try_transaction, Product_findByIdAndUpdate_inc, Purchase_create,
    stock_purchase_of.
  simpl. destruct (replicaSet env); [|done].
  destruct (products st !! id) as [p|]; [|done].
  destruct (inc_field _ _ _) as [p'|]; [|done].
  simpl. destruct (purchase_schema env _); done.
Qed.

(** What a call that returns has done to a product with a numeric stock and
    price: the stock has grown by the amount of the payload, and the
    purchase record carries the stock as it was before the call, not the
    amount added. *)
Lemma addToStock_returns (id : ObjectId) (payload : StockPayload) (userId : ObjectId)
    (st st' : Store) (p product : doc) (s c : Z) :
  products st !! id = Some p →
  num_field p "stock" = Some s →
  num_field p "price" = Some c →
  ProductServices.addToStock env id payload userId st = (Return product, st') →
  product = p
  ∧ products st' = <[id := <["stock" := VNum (s + stock payload)]> p]> (products st)
  ∧ ∃ record,
      purchases st' = purchases st ++ [record]
      ∧ get record "quantity" = VNum s
      ∧ get record "unitPrice" = VNum c
      ∧ get record "totalPrice" = VNum (s * c).
Proof.
  intros Hp Hs Hc. rewrite addToStock_cases, Hp, (inc_field_num _ _ _ s) by done.
  destruct (replicaSet env); [|done]. simpl.
  destruct (purchase_schema env _); [done|]. intros [= <- <-].
  split; [done|]. split; [done|]. eexists. split; [done|].
  unfold stock_purchase_of, purchase_record, get, Number, js_mul in *. simpl.
  apply num_field_lookup in Hs, Hc. by rewrite Hs, Hc.
Qed.
End add_to_stock.

(** C5 fails on the code: adding 3 units to a product that holds 10 units at
    price 5 raises the stock to 13, but the purchase record says quantity 10
    and total price 50, the stock before the call, where the intake was 3 and
    is worth 15. *)
Theorem addToStock_audits_prior_stock :
  ∃ st' record,
    ProductServices.addToStock replica_set 1%N (mkStockPayload 7%N 3) 9%N shop =
      (Return widget, st')
    ∧ products st' !! 1%N = Some (<["stock" := VNum 13]> widget)
    ∧ purchases st' = [record]
    ∧ get record "quantity" = VNum 10
    ∧ get record "unitPrice" = VNum 5
    ∧ get record "totalPrice" = VNum 50
    ∧ get record "quantity" ≠ VNum 3
    ∧ get record "totalPrice" ≠ VNum (3 * 5).
Proof.
  eexists _, _. split; [by rewrite addToStock_cases|]. simpl.
  split; [by rewrite lookup_insert_eq|]. by repeat split.
Qed.

(** Without a replica set the transaction that [addToStock] always starts is
    refused, and the call fails whatever the product. *)
Lemma addToStock_needs_replica_set (env : Deployment) (id : ObjectId)
    (payload : StockPayload) (userId : ObjectId) (st : Store) :
  replicaSet env = false →
  ProductServices.addToStock env id payload userId st =
    (Throw (CustomError 400 "Product create failed"), st).
Proof. intros Hrs. by rewrite addToStock_cases, Hrs. Qed.

(** ** ProductServices.bulkDelete *)

(** C8: [bulkDelete] returns, removes every product whose id is in the list
    and no other, whoever its [user] field names, reports how many it
    removed and leaves the other collections alone; a document that [read]
    returns, by contrast, always has the asking user as its [user]. *)
Theorem bulkDelete_ignores_owner (payload : list ObjectId) (st : Store) :
  ∃ n st',
    ProductServices.bulkDelete payload st = (Return n, st')
    ∧ (∀ id, products st' !! id = if decide (id ∈ payload) then None else products st !! id)
    ∧ (∀ id product owner,
         products st !! id = Some product → product !! "user" = Some (VId owner) →
         id ∈ payload → products st' !! id = None)
    ∧ n = size (filter (λ kv, kv.1 ∈ payload) (products st))
    ∧ sellers st' = sellers st ∧ sales st' = sales st ∧ purchases st' = purchases st
    ∧ (∀ _isExists id userId st0 found st1,
         ProductServices.read _isExists id userId st0 = (Return (Some found), st1) →
         found !! "user" = Some (VId userId)).
Proof.
  eexists _, _. split; [reflexivity|]. simpl.
  assert (∀ id, filter (λ kv : ObjectId * doc, kv.1 ∉ payload) (products st) !! id =
                if decide (id ∈ payload) then None else products st !! id) as Hlookup.
  { intros id. destruct (decide (id ∈ payload)) as [Hin|Hin].
    - apply map_lookup_filter_None. right. intros x _. simpl. by intros [].
    - destruct (products st !! id) as [x|] eqn:Hx.
      + by apply map_lookup_filter_Some.
      + apply map_lookup_filter_None. by left. }
  split; [done|]. split.
  { intros id product owner _ _ Hin. by rewrite Hlookup, decide_True. }
  repeat split.
  intros _isExists id userId st0 found st1.
  unfold ProductServices.read, ProductServices.findOne_user_id, mbind at 1, M_bind, bind.
  destruct (_isExists id st0) as [[[]|e] st2]; [|done].
  intros [= Hfound <-]. destruct (products st2 !! id) as [d|]; [|done].
  simpl in Hfound. case_decide; by simplify_eq.
Qed.

(** The widget of the shop belongs to user 8: user 9 cannot read it, but a
    [bulkDelete] of its id removes it. *)
Example bulkDelete_removes_foreign_product :
  ProductServices.read (λ _, mret ()) 1%N 9%N shop = (Return None, shop)
  ∧ ProductServices.read (λ _, mret ()) 1%N 8%N shop = (Return (Some widget), shop)
  ∧ (ProductServices.bulkDelete [1%N] shop).1 = Return 1%nat
  ∧ products (ProductServices.bulkDelete [1%N] shop).2 !! 1%N = None.
Proof. by vm_compute. Qed.

(** ** Aggregation stages *)

Lemma Zsum_app (l1 l2 : list Z) : Zsum (l1 ++ l2) = Zsum l1 + Zsum l2.
Proof. unfold Zsum. induction l1 as [|x l1 IH]; simpl; lia. Qed.

Lemma Zsum_fmap_snoc {A} (f : A → Z) (l : list A) (x : A) :
  Zsum (f <$> l ++ [x]) = Zsum (f <$> l) + f x.
Proof. rewrite fmap_app, Zsum_app. simpl. lia. Qed.

Section group_stage.
Context {K : Type} `{EqDecision K} (key : Date → K).

Lemma totals_group_add (k k' : K) (q r : Z) (gs : list (Group K)) :
  totals (group_add k q r gs) k' =
  if decide (k = k')
  then Some (match totals gs k with
             | Some (a, b) => (a + q, b + r)
             | None => (q, r)
             end)
  else totals gs k'.
Proof.
  induction gs as [|g gs IH]; simpl.
  { by destruct (decide (k = k')). }
  destruct (decide (_id g = k)) as [Hg|Hg]; simpl.
  - destruct (decide (k = k')) as [Hk|Hk]; [done|].
    by rewrite decide_False by congruence.
  - rewrite IH. destruct (decide (k = k')) as [Hk|Hk]; [|done].
    by rewrite decide_False by congruence.
Qed.

Lemma keys_group_add (k : K) (q r : Z) (gs : list (Group K)) :
  _id <$> group_add k q r gs =
  if decide (k ∈ _id <$> gs) then _id <$> gs else (_id <$> gs) ++ [k].
Proof.
  induction gs as [|g gs IH]; csimpl.
  { destruct (decide (k ∈ [])) as [Hin|_]; [by apply elem_of_nil in Hin|done]. }
  destruct (decide (_id g = k)) as [Hg|Hg]; csimpl.
  - rewrite decide_True; [by rewrite Hg|]. apply elem_of_cons. by left.
  - rewrite IH. destruct (decide (k ∈ _id <$> gs)) as [Hin|Hin].
    + rewrite decide_True; [done|]. apply elem_of_cons. by right.
    + rewrite decide_False; [done|]. by intros [?|?]%elem_of_cons.
Qed.

Lemma NoDup_group_add (k : K) (q r : Z) (gs : list (Group K)) :
  NoDup (_id <$> gs) → NoDup (_id <$> group_add k q r gs).
Proof.
  intros Hnd. rewrite keys_group_add. case_decide as Hin; [done|].
  apply NoDup_app. split; [done|]. split; [|apply NoDup_singleton].
  intros x Hx ->%list_elem_of_singleton. done.
Qed.

Lemma group_stage_snoc (docs : list (Date * Sale)) (ds : Date * Sale) :
  group_stage key (docs ++ [ds]) =
  group_add (key ds.1) (quantity ds.2) (totalPrice ds.2) (group_stage key docs).
Proof. unfold group_stage. by rewrite foldl_app. Qed.

Lemma NoDup_group_stage (docs : list (Date * Sale)) :
  NoDup (_id <$> group_stage key docs).
Proof.
  induction docs as [|ds docs IH] using rev_ind; [apply NoDup_nil_2|].
  rewrite group_stage_snoc. by apply NoDup_group_add.
Qed.

(** The group of a key holds the sums over the documents of that key, and
    there is a group exactly for the keys that occur. *)
Lemma totals_group_stage (docs : list (Date * Sale)) (k : K) :
  totals (group_stage key docs) k =
  match bucket key k docs with
  | [] => None
  | b => Some (Zsum (quantity ∘ snd <$> b), Zsum (totalPrice ∘ snd <$> b))
  end.
Proof.
  induction docs as [|ds docs IH] using rev_ind; [done|].
  rewrite group_stage_snoc, totals_group_add. unfold bucket in *.
  rewrite filter_app, filter_cons, filter_nil.
  destruct (decide (key ds.1 = k)) as [Hk|Hk].
  - subst k. rewrite IH.
    destruct (filter _ docs) as [|x b]; [simpl; do 2 f_equal; lia|].
    cbn [app]. by rewrite !(Zsum_fmap_snoc _ (x :: b) ds).
  - rewrite IH, app_nil_r. done.
Qed.

Lemma totals_Some_elem_of (gs : list (Group K)) (k : K) (q r : Z) :
  totals gs k = Some (q, r) → mkGroup k q r ∈ gs.
Proof.
  induction gs as [|g gs IH]; simpl; [done|].
  destruct (decide (_id g = k)) as [<-|Hg].
  - intros [= <- <-]. destruct g. apply elem_of_cons. by left.
  - intros Hk. apply elem_of_cons. right. by apply IH.
Qed.

Lemma elem_of_totals (gs : list (Group K)) (g : Group K) :
  NoDup (_id <$> gs) → g ∈ gs →
  totals gs (_id g) = Some (totalQuantity g, totalRevenue g).
Proof.
  induction gs as [|h gs IH]; simpl; [by intros _ ?%elem_of_nil|].
  intros [Hh Hnd]%NoDup_cons [->|Hin]%elem_of_cons.
  - by rewrite decide_True.
  - rewrite decide_False; [by apply IH|].
    intros Heq. apply Hh. rewrite Heq. by apply list_elem_of_fmap_2.
Qed.
End group_stage.

Lemma lex_leb_total (a b : list Z) : lex_leb a b = true ∨ lex_leb b a = true.
Proof.
  revert b. induction a as [|x a IH]; intros [|y b]; simpl; auto.
  destruct (IH b) as [H|H]; rewrite H;
    destruct (Z.ltb_spec x y), (Z.ltb_spec y x), (Z.eqb_spec x y), (Z.eqb_spec y x);
    simpl; auto; lia.
Qed.

Lemma lex_leb_trans (a b c : list Z) :
  lex_leb a b = true → lex_leb b c = true → lex_leb a c = true.
Proof.
  revert b c. induction a as [|x a IH]; intros [|y b] [|z c]; simpl; try done.
  intros Hab Hbc.
  apply orb_true_iff in Hab as [Hab|[Hxy Hab]%andb_true_iff];
    apply orb_true_iff in Hbc as [Hbc|[Hyz Hbc]%andb_true_iff];
    apply orb_true_iff; rewrite andb_true_iff, ?Z.ltb_lt, ?Z.eqb_eq in *.
  - left. lia.
  - left. lia.
  - left. lia.
  - right. split; [lia|]. by apply (IH b).
Qed.

Section sort_stage.
Context {K : Type} (fields : K → list Z).

Global Instance sorts_before_total : Total (sorts_before fields).
Proof. intros g h. apply lex_leb_total. Qed.

Global Instance sorts_before_trans : Transitive (sorts_before fields).
Proof. intros g h i. apply lex_leb_trans. Qed.

Lemma sort_stage_Permutation (gs : list (Group K)) : sort_stage fields gs ≡ₚ gs.
Proof. apply merge_sort_Permutation. Qed.

Lemma sort_stage_sorted (gs : list (Group K)) :
  StronglySorted (sorts_before fields) (sort_stage fields gs).
Proof. apply StronglySorted_merge_sort; apply _. Qed.

(** Groups with distinct keys come out of [$sort] in strictly ascending
    order. *)
Lemma sort_stage_strict (before : K → K → Prop) (gs : list (Group K)) :
  (∀ a b, lex_leb (fields a) (fields b) = true → a ≠ b → before a b) →
  NoDup (_id <$> gs) →
  StronglySorted (λ g h, before (_id g) (_id h)) (sort_stage fields gs).
Proof.
  intros Hbefore Hnd.
  assert (NoDup (_id <$> sort_stage fields gs)) as Hnd'.
  { by rewrite sort_stage_Permutation. }
  induction (sort_stage_sorted gs) as [|g l Hl IH Hg]; [constructor|].
  apply NoDup_cons in Hnd' as [Hfresh Hnd']. constructor; [by apply IH|].
  apply Forall_forall. intros h Hh. apply Hbefore.
  - rewrite Forall_forall in Hg. by apply Hg.
  - intros Heq. apply Hfresh. rewrite Heq. by apply list_elem_of_fmap_2.
Qed.
End sort_stage.

Lemma StronglySorted_project {A B} (R : relation A) (S : relation B) (f : A → B) (l : list A) :
  (∀ a b, R a b → S (f a) (f b)) → StronglySorted R l → StronglySorted S (f <$> l).
Proof.
  intros HRS. induction 1 as [|a l Hl IH Ha]; csimpl; constructor; [done|].
  apply Forall_fmap. eapply Forall_impl; [done|]. intros b. apply HRS.
Qed.

(** The documents of a key entering [$group] are the sales of the user in
    that period. *)
Lemma bucket_match_user_dated {K} `{EqDecision K} (key : Date → K) (userId : ObjectId)
    (k : K) (l : list Sale) :
  snd <$> bucket key k (match_user_dated userId l) = filter (in_period key userId k) l.
Proof.
  unfold bucket, match_user_dated. induction l as [|s l IH]; [done|].
  rewrite filter_cons. csimpl.
  destruct (decide (in_period key userId k s)) as [[Hu Hd]|Hn].
  - rewrite decide_True by done. destruct (date s) as [d|]; [|done]. simplify_eq/=.
    rewrite filter_cons, decide_True by done. csimpl. by rewrite IH.
  - destruct (decide (user s = userId)) as [Hu|Hu]; [|done].
    destruct (date s) as [d|] eqn:Hd; [|done]. csimpl.
    rewrite filter_cons, decide_False; [done|].
    simpl. intros Hk. apply Hn. split; [done|]. by rewrite Hd, <- Hk.
Qed.

Lemma elem_of_match_user_dated (userId : ObjectId) (l : list Sale) (d : Date) (s : Sale) :
  (d, s) ∈ match_user_dated userId l ↔ s ∈ l ∧ user s = userId ∧ date s = Some d.
Proof.
  unfold match_user_dated. rewrite list_elem_of_omap. split.
  - intros (s' & Hin & Hs'). destruct (decide (user s' = userId)); [|done].
    destruct (date s') eqn:Hd; by simplify_eq/=.
  - intros (Hin & Hu & Hd). exists s. split; [done|].
    by rewrite decide_True, Hd.
Qed.

Section rollup.
Context {K R : Type} `{EqDecision K}.
Context (key : Date → K) (fields : K → list Z) (before : K → K → Prop).
Context (project : Group K → R) (row_key : R → K) (row_quantity row_revenue : R → Z).
Hypothesis project_key : ∀ g, row_key (project g) = _id g.
Hypothesis project_quantity : ∀ g, row_quantity (project g) = totalQuantity g.
Hypothesis project_revenue : ∀ g, row_revenue (project g) = totalRevenue g.
Hypothesis fields_before :
  ∀ a b, lex_leb (fields a) (fields b) = true → a ≠ b → before a b.

(** The pipeline [$match], [$group], [$sort], [$project] computes the
    rollup. *)
Lemma pipeline_is_rollup (userId : ObjectId) (l : list Sale) :
  is_rollup key before row_key row_quantity row_revenue userId l
    (project <$> sort_stage fields (group_stage key (match_user_dated userId l))).
Proof.
  set (docs := match_user_dated userId l). set (gs := group_stage key docs).
  pose proof (NoDup_group_stage key docs) as Hnd.
  assert (∀ g, g ∈ sort_stage fields gs ↔ g ∈ gs) as Hperm.
  { intros g. by rewrite sort_stage_Permutation. }
  split; [|split].
  - apply (StronglySorted_project (λ g h, before (_id g) (_id h))).
    + intros g h. by rewrite !project_key.
    + by apply sort_stage_strict.
  - intros s d Hs Hu Hd.
    assert ((d, s) ∈ bucket key (key d) docs) as Hb.
    { apply list_elem_of_filter. split; [done|]. by apply elem_of_match_user_dated. }
    pose proof (totals_group_stage key docs (key d)) as Ht.
    destruct (bucket key (key d) docs) as [|x b] eqn:Hbucket; [by apply elem_of_nil in Hb|].
    apply totals_Some_elem_of, Hperm in Ht.
    eexists. split; [by apply list_elem_of_fmap_2|]. by rewrite project_key.
  - intros r (g & -> & Hg%Hperm)%list_elem_of_fmap.
    rewrite project_key, project_quantity, project_revenue.
    pose proof (elem_of_totals gs g Hnd Hg) as Ht.
    unfold gs in Ht. rewrite totals_group_stage in Ht.
    rewrite <- (bucket_match_user_dated key userId (_id g) l). fold docs.
    destruct (bucket key (_id g) docs) as [|x b]; [done|].
    injection Ht as Hq Hr. rewrite <- !list_fmap_compose. by repeat split.
Qed.
End rollup.

(** ** The revenue rollups *)

Section rollups.
Context (isoWeek isoWeekYear year month dayOfMonth : Date → Z).

(** C6: each of the four rollups returns, leaves the store alone, and its
    rows are the rollup of the sales of the user by its calendar key: one
    row per period in which the user has a dated sale, carrying the sums
    of the quantities and of the total prices of the sales of that period,
    in ascending order of year then week (weekly), of year (yearly), of
    year, month, day (daily) and of year then month (monthly). *)
Theorem rollups_group_sum_and_sort (userId : ObjectId) (st : Store) :
  (∃ rows,
     SaleServices.readAllWeeks isoWeek isoWeekYear userId st = (Return rows, st)
     ∧ is_rollup (λ d, (isoWeek d, isoWeekYear d)) week_before
         (λ r, (Weeks.week r, Weeks.year r)) Weeks.totalQuantity Weeks.totalRevenue
         userId (sales st) rows)
  ∧ (∃ rows,
       SaleServices.readAllYearly year userId st = (Return rows, st)
       ∧ is_rollup year year_before
           Years.year Years.totalQuantity Years.totalRevenue
           userId (sales st) rows)
  ∧ (∃ rows,
       SaleServices.readAllDaily year month dayOfMonth userId st = (Return rows, st)
       ∧ is_rollup (λ d, (dayOfMonth d, month d, year d)) day_before
           (λ r, (Days.day r, Days.month r, Days.year r)) Days.totalQuantity Days.totalRevenue
           userId (sales st) rows)
  ∧ (∃ rows,
       SaleServices.readAllMonths year month userId st = (Return rows, st)
       ∧ is_rollup (λ d, (month d, year d)) month_before
           (λ r, (Months.month r, Months.year r)) Months.totalQuantity Months.totalRevenue
           userId (sales st) rows).
Proof.
  repeat split; (eexists; split; [reflexivity|]);
    apply pipeline_is_rollup; try done; try (by intros [[] ?]); try (by intros [[[] ?] ?]).
  - intros [w1 y1] [w2 y2]. unfold week_before. simpl.
    rewrite !orb_true_iff, !andb_true_iff, !orb_true_iff, !Z.ltb_lt, !Z.eqb_eq.
    intros H Hne.
    assert (w1 ≠ w2 ∨ y1 ≠ y2)
      by (destruct (decide (w1 = w2)) as [->|]; [right; congruence|by left]).
    lia.
  - intros y1 y2. unfold year_before. simpl.
    rewrite !orb_true_iff, !andb_true_iff, !Z.ltb_lt, !Z.eqb_eq. lia.
  - intros [[d1 m1] y1] [[d2 m2] y2]. unfold day_before. simpl.
    rewrite !orb_true_iff, !andb_true_iff, !orb_true_iff, !andb_true_iff,
      !orb_true_iff, !Z.ltb_lt, !Z.eqb_eq.
    intros H Hne.
    assert (d1 ≠ d2 ∨ m1 ≠ m2 ∨ y1 ≠ y2).
    { destruct (decide (d1 = d2)) as [->|]; [|by left].
      destruct (decide (m1 = m2)) as [->|]; [|by right; left].
      right; right; congruence. }
    lia.
  - intros [m1 y1] [m2 y2]. unfold month_before. simpl.
    rewrite !orb_true_iff, !andb_true_iff, !orb_true_iff, !Z.ltb_lt, !Z.eqb_eq.
    intros H Hne.
    assert (m1 ≠ m2 ∨ y1 ≠ y2)
      by (destruct (decide (m1 = m2)) as [->|]; [right; congruence|by left]).
    lia.
Qed.
End rollups.

(** With dates written as 8-digit numbers yyyymmdd and a toy calendar whose
    week is the number mmdd divided by 7, user 9 of the ledger sold twice in
    week 15 of 2024 and once in week 175 of 2023; the undated sale and the
    sale of user 8 are not counted. *)
Example readAllWeeks_ledger :
  (SaleServices.readAllWeeks (λ d, (d `mod` 10000) `div` 7) (λ d, d `div` 10000)
     9%N ledger).1 =
  Return [Weeks.mkRow 175 2023 3 15; Weeks.mkRow 15 2024 3 14].
Proof. by vm_compute. Qed.

(** ** SaleServices.readAll *)

Lemma count_of_count_stage {A} (l : list A) :
  count_of (count_stage l) = Z.of_nat (length l).
Proof. unfold count_of, count_stage, Zsum. destruct l; simpl; lia. Qed.

Lemma matching_owned (re : string → bool) (userId : ObjectId) (l : list Sale) :
  (length (matching re userId l) ≤ length (owned userId l))%nat.
Proof.
  unfold matching, owned. induction l as [|s l IH]; [done|].
  rewrite !filter_cons. repeat case_decide; simpl; lia.
Qed.

Lemma matching_owned_lt (re : string → bool) (userId : ObjectId) (l : list Sale) (s : Sale) :
  s ∈ l → user s = userId → re (productName s) = false → re (buyerName s) = false →
  (length (matching re userId l) < length (owned userId l))%nat.
Proof.
  intros Hin Hu Hp Hb. induction l as [|x l IH]; [by apply elem_of_nil in Hin|].
  pose proof (matching_owned re userId l) as Hle.
  unfold matching, owned in *. rewrite !filter_cons.
  apply elem_of_cons in Hin as [<-|Hin].
  - rewrite decide_False by (rewrite Hp, Hb; by intros [_ ?]).
    rewrite decide_True by done. simpl. lia.
  - specialize (IH Hin). repeat case_decide; simpl; lia.
Qed.

Section read_all.
Context (regex_i : string → option (string → bool)).
Context (sortAndPaginatePipeline : doc → list Sale → list Sale).

(** [readAll], one case per path through the function. *)
Lemma readAll_cases (query : doc) (userId : ObjectId) (st : Store) :
  SaleServices.readAll regex_i sortAndPaginatePipeline query userId st =
  match search_of query with
  | VStr search =>
      match regex_i search with
      | Some re =>
          (Return (mkPage (sortAndPaginatePipeline query (matching re userId (sales st)))
                     (count_stage (owned userId (sales st)))), st)
      | None => (Throw (DriverError "Regular expression is invalid"), st)
      end
  | _ => (Throw (DriverError "$regex has to be a string"), st)
  end.
Proof.
  unfold SaleServices.readAll, mbind, M_bind, bind, Sale_aggregate, search_of, matching, owned.
  destruct (if truthy _ then _ else _); try done.
  by destruct (regex_i _).
Qed.

(** C10: when [readAll] returns, the store is untouched; the count it
    returns is the number of all sales of the user, whatever the query (any
    other query that returns gives the same [totalCount]); the data are the
    sales of the user that match the search on the product name or the buyer
    name, passed through the sort and pagination stages, so every sale of
    the data is a matching sale of the user; and as soon as one sale of the
    user matches on neither name, the count is above the number of matching
    sales. *)
Theorem readAll_counts_all_sales_of_user
    (query : doc) (userId : ObjectId) (st st' : Store) (page : Page) :
  (∀ q l, sortAndPaginatePipeline q l ⊆ l) →
  SaleServices.readAll regex_i sortAndPaginatePipeline query userId st = (Return page, st') →
  st' = st
  ∧ count_of (totalCount page) = Z.of_nat (length (owned userId (sales st)))
  ∧ (∀ query' page' st'',
       SaleServices.readAll regex_i sortAndPaginatePipeline query' userId st =
         (Return page', st'') →
       totalCount page' = totalCount page)
  ∧ ∃ search re,
      search_of query = VStr search
      ∧ regex_i search = Some re
      ∧ data page = sortAndPaginatePipeline query (matching re userId (sales st))
      ∧ (∀ s, s ∈ data page →
           s ∈ sales st ∧ user s = userId
           ∧ (re (productName s) = true ∨ re (buyerName s) = true))
      ∧ (∀ s, s ∈ sales st → user s = userId →
           re (productName s) = false → re (buyerName s) = false →
           Z.of_nat (length (matching re userId (sales st))) < count_of (totalCount page)).
Proof.
  intros Hsub. rewrite readAll_cases.
  destruct (search_of query) as [| | | | |search|] eqn:Hsearch; try done.
  destruct (regex_i search) as [re|] eqn:Hre; [|done].
  intros [= <- <-]. simpl. rewrite count_of_count_stage.
  split; [done|]. split; [done|]. split.
  { intros query' page' st''. rewrite readAll_cases.
    repeat case_match; try done. by intros [= <- <-]. }
  exists search, re. split; [done|]. split; [done|]. split; [done|]. split.
  - intros s Hs%Hsub. unfold matching in Hs.
    apply list_elem_of_filter in Hs as [[Hu Hm] Hin].
    apply orb_true_iff in Hm. done.
  - intros s Hin Hu Hp Hb. apply inj_lt. by apply (matching_owned_lt re userId _ s).
Qed.

(** [readAll] returns as soon as the search is absent or a string and the
    pattern compiles. *)
Lemma readAll_returns (query : doc) (userId : ObjectId) (st : Store)
    (search : string) (re : string → bool) :
  search_of query = VStr search → regex_i search = Some re →
  ∃ page, SaleServices.readAll regex_i sortAndPaginatePipeline query userId st =
            (Return page, st).
Proof. intros Hs Hre. rewrite readAll_cases, Hs, Hre. eauto. Qed.
End read_all.

Lemma readAll_counts_all_sales_of_user_witness :
  ∃ page,
    SaleServices.readAll substring_match (λ _ l, l) {[ "search" := VStr "gadget" ]} 9%N ledger =
      (Return page, ledger)
    ∧ count_of (totalCount page) = 4.
Proof.
  set (call := SaleServices.readAll substring_match (λ _ l, l)
                 {[ "search" := VStr "gadget" ]} 9%N ledger).
  set (page := match call.1 with Return page => page | Throw _ => mkPage [] [] end).
  assert (call = (Return page, ledger)) as Hcall by (vm_compute; reflexivity).
  exists page. split; [exact Hcall|].
  pose proof (readAll_counts_all_sales_of_user substring_match (λ _ l, l)
                {[ "search" := VStr "gadget" ]} 9%N ledger ledger page
                (λ _ l, reflexivity l)) as Hpage.
  destruct (Hpage Hcall) as (_ & Hcount & _).
  rewrite Hcount. vm_compute. reflexivity.
Defined.

(** In the ledger user 9 has four sales, one of them of a gadget: a search
    for "gadget" returns that sale and the count 4. *)
Example readAll_ledger :
  (SaleServices.readAll substring_match (λ _ l, l) {[ "search" := VStr "gadget" ]}
     9%N ledger).1 =
  Return (mkPage [mkSale 1%N "gadget" 4 1 "eve" (Some 20240109) 9%N 4] [mkTotalRow 4]).
Proof. by vm_compute. Qed.


(** * Further properties *)

(** ** SaleServices.create: what a call leaves alone *)

Section sale_create_frame.
Context (env : Deployment).

(** X1: whatever its outcome, a sale create leaves the sellers and the
    purchases as they were, neither inserts nor removes a product, touches
    no product but the one sold and no field of that one but [stock], and
    keeps the sales already recorded, in their order. *)
Theorem sale_create_frame (payload : Sale) (userId : ObjectId) (st st' : Store)
    (r : outcome (list Sale)) :
  SaleServices.create env payload userId st = (r, st') →
  sellers st' = sellers st
  ∧ purchases st' = purchases st
  ∧ dom (products st') = dom (products st)
  ∧ (∀ id, id ≠ product payload → products st' !! id = products st !! id)
  ∧ (∀ k, k ≠ "stock" →
       (products st' !! product payload) ≫= (.!! k) =
       (products st !! product payload) ≫= (.!! k))
  ∧ sales st `prefix_of` sales st'.
Proof.
  rewrite create_cases.
  destruct (products st !! product payload) as [p|] eqn:Hp;
    [|by intros [= <- <-]; rewrite Hp].
  destruct (js_gt _ _); [by intros [= <- <-]; rewrite Hp|].
  destruct (inc_field _ _ _) as [p'|] eqn:Hinc; [|by intros [= <- <-]; rewrite Hp].
  assert (∀ k, k ≠ "stock" → p' !! k = p !! k) as Hfields.
  { intros k Hk. unfold inc_field in Hinc.
    destruct (p !! "stock") as [[]|]; simplify_eq; by rewrite lookup_insert_ne. }
  assert (dom (<[product payload := p']> (products st)) = dom (products st)) as Hdom.
  { apply dom_insert_lookup_L. by eauto. }
  assert (∀ id, id ≠ product payload →
            <[product payload := p']> (products st) !! id = products st !! id) as Hother.
  { intros id Hid. by rewrite lookup_insert_ne. }
  simpl. destruct (sale_schema env _); [destruct (replicaSet env)|];
    intros [= <- <-]; simpl; split_and!; try done;
    try (intros k Hk; rewrite ?lookup_insert_eq, ?Hp; simpl; by auto).
  by apply prefix_app_r.
Qed.

(** X2: stock and recorded sales stay in balance.  When the call runs in a
    session, or returns, the stock of every product with a numeric stock plus
    the units its recorded sales add up to is the same after the call as
    before. *)
Theorem sale_create_conserves_units (payload : Sale) (userId : ObjectId) (st st' : Store)
    (r : outcome (list Sale)) (id : ObjectId) (s : Z) :
  replicaSet env = true ∨ (∃ result, r = Return result) →
  on_hand id st = Some s →
  SaleServices.create env payload userId st = (r, st') →
  ∃ s', on_hand id st' = Some s'
        ∧ s' + sold id (sales st') = s + sold id (sales st).
Proof.
  intros Hmode Hs. rewrite create_cases. unfold on_hand in *.
  destruct (products st !! product payload) as [p|] eqn:Hp;
    [|intros [= <- <-]; by eauto].
  destruct (js_gt _ _); [intros [= <- <-]; by eauto|].
  destruct (inc_field _ _ _) as [p'|] eqn:Hinc; [|intros [= <- <-]; by eauto].
  simpl. destruct (sale_schema env _) as [m|].
  { destruct Hmode as [->|[result ->]]; [|done]. intros [= <- <-]. by eauto. }
  intros [= <- <-]. simpl. unfold sold.
  rewrite filter_app, fmap_app, Zsum_app, filter_cons, filter_nil. simpl.
  destruct (decide (id = product payload)) as [->|Hid].
  - rewrite Hp in Hs. simpl in Hs. rewrite (inc_field_num _ _ _ s) in Hinc by done.
    injection Hinc as <-. rewrite lookup_insert_eq. simpl.
    rewrite num_field_insert_eq, decide_True by done. eexists. split; [done|]. simpl. lia.
  - rewrite lookup_insert_ne, decide_False by done. exists s. split; [done|]. simpl. lia.
Qed.

(** X3: the guard bounds the quantity from above only.  On a product with a
    non-negative stock a quantity of zero or below is never rejected: once
    the sale passes the schema it is recorded, with that quantity and the
    total price [productPrice * quantity], and the stock does not shrink. *)
Theorem sale_create_accepts_nonpositive_quantity
    (payload : Sale) (userId : ObjectId) (st : Store) (p : doc) (s : Z) :
  products st !! product payload = Some p →
  num_field p "stock" = Some s →
  0 ≤ s →
  quantity payload ≤ 0 →
  sale_schema env (sale_of payload userId) = None →
  ∃ st',
    SaleServices.create env payload userId st = (Return [sale_of payload userId], st')
    ∧ on_hand (product payload) st' = Some (s - quantity payload)
    ∧ s ≤ s - quantity payload
    ∧ sales st' = sales st ++ [sale_of payload userId]
    ∧ totalPrice (sale_of payload userId) = productPrice payload * quantity payload.
Proof.
  intros Hp Hs Hs0 Hq Hvalid.
  rewrite create_cases, Hp, (js_gt_num _ s), bool_decide_eq_false_2 by (done || lia).
  rewrite (inc_field_num _ _ _ s) by done. simpl. rewrite Hvalid.
  eexists. split; [done|]. unfold on_hand. simpl. rewrite lookup_insert_eq. simpl.
  rewrite num_field_insert_eq. repeat split; try done; f_equal; lia.
Qed.
End sale_create_frame.

Lemma sale_create_frame_witness :
  sellers (SaleServices.create replica_set (order 3) 9%N shop).2 = sellers shop
  ∧ sales shop `prefix_of` sales (SaleServices.create replica_set (order 3) 9%N shop).2.
Proof.
  set (call := SaleServices.create replica_set (order 3) 9%N shop).
  destruct (sale_create_frame replica_set (order 3) 9%N shop call.2 call.1
              (surjective_pairing call))
    as (Hsellers & _ & _ & _ & _ & Hsales).
  by split.
Defined.

Lemma sale_create_conserves_units_witness :
  ∃ s', on_hand 1%N (SaleServices.create replica_set (order 3) 9%N shop).2 = Some s'
        ∧ s' + sold 1%N (sales (SaleServices.create replica_set (order 3) 9%N shop).2)
          = 10 + sold 1%N (sales shop).
Proof.
  set (call := SaleServices.create replica_set (order 3) 9%N shop).
  apply (sale_create_conserves_units replica_set (order 3) 9%N shop call.2 call.1 1%N 10).
  - by left.
  - reflexivity.
  - apply surjective_pairing.
Defined.

Lemma sale_create_accepts_nonpositive_quantity_witness :
  ∃ st',
    SaleServices.create replica_set (order (-2)) 9%N shop =
      (Return [sale_of (order (-2)) 9%N], st')
    ∧ on_hand 1%N st' = Some 12.
Proof.
  destruct (sale_create_accepts_nonpositive_quantity replica_set (order (-2)) 9%N shop widget 10)
    as (st' & Hcall & Hstock & _); [reflexivity|reflexivity|lia|simpl; lia|reflexivity|].
  by exists st'.
Defined.

(** ** ProductServices.create: cleaning the payload *)

(** X4: the result of the loop does not depend on the order of the keys: it
    is the payload restricted to its truthy fields.  It is contained in the
    payload, cleaning once more changes nothing, and a payload that holds no
    falsy value is left as it is. *)
Theorem remove_empty_fields_is_truthy_part (payload : doc) :
  ProductServices.remove_empty_fields payload =
    filter (λ kv, truthy kv.2 = true) payload
  ∧ ProductServices.remove_empty_fields payload ⊆ payload
  ∧ ProductServices.remove_empty_fields (ProductServices.remove_empty_fields payload) =
      ProductServices.remove_empty_fields payload
  ∧ ((∀ k v, payload !! k = Some v → truthy v = true) →
       ProductServices.remove_empty_fields payload = payload).
Proof.
  assert (∀ p : doc, ProductServices.remove_empty_fields p =
                     filter (λ kv, truthy kv.2 = true) p) as Hfilter.
  { intros p. apply map_eq. intros k.
    rewrite remove_empty_fields_lookup, map_lookup_filter. unfold get.
    destruct (p !! k) as [v|]; simpl; [|done].
    destruct (truthy v) eqn:Hv.
    - by rewrite option_guard_True.
    - by rewrite option_guard_False by (simpl; congruence). }
  split; [done|]. rewrite !Hfilter. split; [apply map_filter_subseteq|]. split.
  - apply map_filter_id. by intros k v [_ ?]%map_lookup_filter_Some.
  - intros Htruthy. apply map_filter_id. intros k v. apply Htruthy.
Qed.

(** ** ProductServices.create: what a call leaves alone, and reading back *)

Section product_create_more.
Context (env : Deployment).

(** X5: whatever its outcome, a product create leaves the sellers and the
    sales as they were, keeps every product of the store as it is, adds at
    most one product, and keeps the purchases already recorded, in their
    order. *)
Theorem product_create_frame (payload : doc) (userId : ObjectId) (st st' : Store)
    (r : outcome (list (ObjectId * doc))) :
  ProductServices.create env payload userId st = (r, st') →
  sellers st' = sellers st
  ∧ sales st' = sales st
  ∧ products st ⊆ products st'
  ∧ (size (products st') ≤ S (size (products st)))%nat
  ∧ purchases st `prefix_of` purchases st'.
Proof.
  rewrite product_create_cases. simpl.
  assert (products st !! fresh (dom (products st)) = None) as Hfresh
    by apply not_elem_of_dom, is_fresh.
  assert (∀ x : doc, products st ⊆ <[fresh (dom (products st)) := x]> (products st)) as Hsub.
  { intros x. by apply insert_subseteq. }
  assert (∀ x : doc, (size (<[fresh (dom (products st)) := x]> (products st))
                      ≤ S (size (products st)))%nat) as Hsize.
  { intros x. by rewrite map_size_insert_None. }
  repeat case_match; intros [= <- <-]; simpl; split_and!; try done; try lia.
  by apply prefix_app_r.
Qed.

(** X6: a product that was created can be read back by its creator and by
    nobody else: the query of [read] finds the stored document for the
    creating user and nothing for any other user, and [read] itself returns it
    as soon as the existence check passes. *)
Theorem product_create_then_read (payload : doc) (userId : ObjectId) (st st' : Store)
    (result : list (ObjectId * doc)) :
  ProductServices.create env payload userId st = (Return result, st') →
  ∃ id product,
    result = [(id, product)]
    ∧ ProductServices.findOne_user_id userId id st' = (Return (Some product), st')
    ∧ (∀ other, other ≠ userId →
         ProductServices.findOne_user_id other id st' = (Return None, st'))
    ∧ (∀ _isExists, _isExists id st' = (Return (), st') →
         ProductServices.read _isExists id userId st' = (Return (Some product), st')).
Proof.
  rewrite product_create_cases. simpl.
  destruct (seller_of _ st) as [seller|]; [|done].
  destruct (product_schema env _); [done|].
  destruct (purchase_schema env _); [done|]. intros [= <- <-].
  assert (product_of payload userId !! "user" = Some (VId userId)) as Huser.
  { unfold product_of. by rewrite lookup_insert_eq. }
  assert (∀ u, ProductServices.findOne_user_id u (fresh (dom (products st)))
                 (set_purchases
                    (λ l, l ++ [purchase_of userId (fresh (dom (products st))) seller
                                  (product_of payload userId)])
                    (set_products <[fresh (dom (products st)) := product_of payload userId]> st))
               = (Return (if decide (u = userId) then Some (product_of payload userId) else None),
                  set_purchases
                    (λ l, l ++ [purchase_of userId (fresh (dom (products st))) seller
                                  (product_of payload userId)])
                    (set_products <[fresh (dom (products st)) := product_of payload userId]> st)))
    as Hfind.
  { intros u. unfold ProductServices.findOne_user_id. simpl.
    rewrite lookup_insert_eq. simpl. rewrite Huser.
    destruct (decide (u = userId)) as [->|Hne]; [by rewrite decide_True|].
    rewrite decide_False; [done|]. by intros [= ->]. }
  eexists _, _. split; [done|]. split; [|split].
  - by rewrite Hfind, decide_True.
  - intros other Hother. by rewrite Hfind, decide_False.
  - intros _isExists Hexists. unfold ProductServices.read, mbind at 1, M_bind, bind.
    by rewrite Hexists, Hfind, decide_True.
Qed.
End product_create_more.

Lemma remove_empty_fields_is_truthy_part_witness :
  ProductServices.remove_empty_fields (gadget 4) = gadget 4.
Proof.
  apply (remove_empty_fields_is_truthy_part (gadget 4)).
  intros k v Hkv. unfold gadget in Hkv.
  repeat (apply lookup_insert_Some in Hkv as [[_ <-]|[_ Hkv]]; [reflexivity|]).
  by apply lookup_singleton_Some in Hkv as [_ <-].
Defined.

Lemma product_create_frame_witness :
  products shop ⊆ products (ProductServices.create replica_set (gadget 4) 9%N shop).2
  ∧ sales (ProductServices.create replica_set (gadget 4) 9%N shop).2 = sales shop.
Proof.
  set (call := ProductServices.create replica_set (gadget 4) 9%N shop).
  destruct (product_create_frame replica_set (gadget 4) 9%N shop call.2 call.1
              (surjective_pairing call)) as (_ & Hsales & Hproducts & _).
  by split.
Defined.

Lemma product_create_then_read_witness :
  ∃ id product,
    ProductServices.findOne_user_id 9%N id
      (ProductServices.create replica_set (gadget 4) 9%N shop).2 =
      (Return (Some product), (ProductServices.create replica_set (gadget 4) 9%N shop).2).
Proof.
  set (call := ProductServices.create replica_set (gadget 4) 9%N shop).
  assert (call = (Return (match call.1 with Return r => r | Throw _ => [] end), call.2))
    as Hcall by (vm_compute; reflexivity).
  destruct (product_create_then_read replica_set (gadget 4) 9%N shop call.2 _ Hcall)
    as (id & product & _ & Hfind & _).
  by exists id, product.
Defined.

(** ** ProductServices.create followed by SaleServices.create *)

Lemma get_product_of (payload : doc) (userId : ObjectId) (k : string) :
  k ≠ "user" →
  get (product_of payload userId) k =
  if truthy (get payload k) then get payload k else VUndefined.
Proof.
  intros Hk. unfold get at 1, product_of.
  rewrite lookup_insert_ne, remove_empty_fields_lookup by done.
  by destruct (truthy (get payload k)).
Qed.

Lemma product_create_returns (env : Deployment) (payload : doc) (userId : ObjectId)
    (st st' : Store) (result : list (ObjectId * doc)) :
  ProductServices.create env payload userId st = (Return result, st') →
  ∃ id seller,
    result = [(id, product_of payload userId)]
    ∧ products st' !! id = Some (product_of payload userId)
    ∧ purchases st' =
        purchases st ++ [purchase_of userId id seller (product_of payload userId)].
Proof.
  rewrite product_create_cases. simpl.
  destruct (seller_of _ st) as [seller|]; [|done].
  destruct (product_schema env _); [done|].
  destruct (purchase_schema env _); [done|]. intros [= <- <-].
  eexists _, seller. simpl. by rewrite lookup_insert_eq.
Qed.

Section create_then_sell.
Context (env : Deployment).

(** X7: the stock guard works on a product as [create] stored it.  For a
    product created with a stock [s] other than 0, a later sale of more than
    [s] units is rejected with the 400 of the guard and changes nothing,
    and a sale of at most [s] units that passes the schema is recorded and
    leaves the stock at [s] minus the quantity. *)
Theorem created_product_is_guarded (payload : doc) (userId : ObjectId) (st st1 : Store)
    (id : ObjectId) (created : doc) (s : Z) (sale : Sale) (buyer : ObjectId) :
  payload !! "stock" = Some (VNum s) →
  s ≠ 0 →
  ProductServices.create env payload userId st = (Return [(id, created)], st1) →
  product sale = id →
  (s < quantity sale →
     SaleServices.create env sale buyer st1 =
       (Throw (CustomError 400
          (pretty (quantity sale) ++ " products are not available in stock!")), st1))
  ∧ (quantity sale ≤ s → sale_schema env (sale_of sale buyer) = None →
       ∃ st2,
         SaleServices.create env sale buyer st1 = (Return [sale_of sale buyer], st2)
         ∧ on_hand id st2 = Some (s - quantity sale)).
Proof.
  intros Hstock Hs0 Hcreate Hsale.
  apply product_create_returns in Hcreate as (id' & seller & [= -> ->] & Hid & _).
  assert (num_field (product_of payload userId) "stock" = Some s) as Hnum.
  { apply num_field_lookup. unfold product_of.
    rewrite lookup_insert_ne, remove_empty_fields_lookup by done.
    unfold get. rewrite Hstock. simpl. destruct (Z.eqb_spec s 0); [lia|done]. }
  rewrite create_cases, Hsale, Hid, (js_gt_num _ s) by done. split.
  - intros Hq. by rewrite bool_decide_eq_true_2.
  - intros Hq Hvalid. rewrite bool_decide_eq_false_2 by lia.
    rewrite (inc_field_num _ _ _ s) by done. simpl. rewrite Hvalid.
    eexists. split; [done|]. unfold on_hand. simpl. rewrite lookup_insert_eq. simpl.
    by rewrite num_field_insert_eq.
Qed.


(** X9: a price or a stock that is falsy in the payload reaches the purchase
    record as a hole.  When the call returns, the record appended has the
    total price NaN, no unit price when the price was falsy and no quantity
    when the stock was falsy. *)
Theorem purchase_of_product_without_price_or_stock
    (payload : doc) (userId : ObjectId) (st st' : Store)
    (result : list (ObjectId * doc)) :
  truthy (get payload "price") = false ∨ truthy (get payload "stock") = false →
  ProductServices.create env payload userId st = (Return result, st') →
  ∃ record,
    purchases st' = purchases st ++ [record]
    ∧ get record "totalPrice" = VNaN
    ∧ (truthy (get payload "price") = false → get record "unitPrice" = VUndefined)
    ∧ (truthy (get payload "stock") = false → get record "quantity" = VUndefined).
Proof.
  intros Hfalsy Hcreate.
  apply product_create_returns in Hcreate as (id & seller & _ & _ & Hpurchases).
  eexists. split; [done|].
  destruct (purchase_of_fields userId id seller (product_of payload userId))
    as (_ & _ & _ & _ & _ & Hquantity & Hunit & Htotal).
  rewrite Hquantity, Hunit, Htotal, !get_product_of by done.
  split; [|split]; [|by intros ->|by intros ->].
  destruct Hfalsy as [->| ->]; unfold js_mul; simpl; [|done].
  by destruct (to_number _).
Qed.
End create_then_sell.

Lemma created_product_is_guarded_witness :
  ∃ st1,
    ProductServices.create replica_set (bouquet 4) 9%N shop =
      (Return [(2%N, product_of (bouquet 4) 9%N)], st1)
    ∧ SaleServices.create replica_set (mkSale 2%N "bouquet" 3 5 "bob" None 0%N 0) 8%N st1 =
        (Throw (CustomError 400 "5 products are not available in stock!"), st1).
Proof.
  set (call := ProductServices.create replica_set (bouquet 4) 9%N shop).
  assert (call = (Return [(2%N, product_of (bouquet 4) 9%N)], call.2)) as Hcall
    by (vm_compute; reflexivity).
  exists call.2. split; [exact Hcall|].
  pose proof (created_product_is_guarded replica_set (bouquet 4) 9%N shop call.2 2%N
                (product_of (bouquet 4) 9%N) 4
                (mkSale 2%N "bouquet" 3 5 "bob" None 0%N 0) 8%N) as Hguard.
  destruct Hguard as [Hreject _]; [reflexivity|lia|exact Hcall|reflexivity|].
  apply Hreject. simpl. lia.
Defined.


Lemma purchase_of_product_without_price_or_stock_witness :
  ∃ record,
    purchases (ProductServices.create replica_set (bouquet 0) 9%N shop).2 =
      purchases shop ++ [record]
    ∧ get record "totalPrice" = VNaN.
Proof.
  set (call := ProductServices.create replica_set (bouquet 0) 9%N shop).
  assert (call = (Return [(2%N, product_of (bouquet 0) 9%N)], call.2)) as Hcall
    by (vm_compute; reflexivity).
  pose proof (purchase_of_product_without_price_or_stock replica_set (bouquet 0) 9%N shop
                call.2 [(2%N, product_of (bouquet 0) 9%N)]) as Hrecord.
  destruct Hrecord as (record & Hpurchases & Htotal & _);
    [right; vm_compute; reflexivity|exact Hcall|].
  exists record. split; [exact Hpurchases|exact Htotal].
Defined.

(** ** ProductServices.bulkDelete: counting, composing, and what comes after *)

Lemma bulkDelete_result (payload : list ObjectId) (st : Store) :
  ProductServices.bulkDelete payload st =
    (Return (size (filter (λ kv, kv.1 ∈ payload) (products st))),
     set_products (filter (λ kv, kv.1 ∉ payload)) st).
Proof. done. Qed.

Lemma bulkDelete_size (payload : list ObjectId) (m : gmap ObjectId doc) :
  (size (filter (λ kv, kv.1 ∈ payload) m) + size (filter (λ kv, kv.1 ∉ payload) m)
   = size m)%nat.
Proof.
  rewrite <- map_size_disj_union
    by apply (map_disjoint_filter_complement (λ kv : ObjectId * doc, kv.1 ∈ payload)).
  f_equal. apply (map_filter_union_complement (λ kv : ObjectId * doc, kv.1 ∈ payload)).
Qed.

(** X10: the number [bulkDelete] reports is the number of products that
    left the store; a list that names no product of the store (the empty
    list among them) deletes nothing, reports 0 and leaves the store as it
    is. *)
Theorem bulkDelete_counts_removed (payload : list ObjectId) (st st' : Store) (n : nat) :
  ProductServices.bulkDelete payload st = (Return n, st') →
  (n + size (products st') = size (products st))%nat
  ∧ ((∀ id, id ∈ payload → products st !! id = None) → n = 0%nat ∧ st' = st).
Proof.
  rewrite bulkDelete_result. intros [= <- <-]. simpl. split; [apply bulkDelete_size|].
  intros Hnone.
  assert (filter (λ kv : ObjectId * doc, kv.1 ∉ payload) (products st) = products st) as Hid.
  { apply map_filter_id. intros i x Hix Hin. simpl in Hin.
    specialize (Hnone i Hin). congruence. }
  pose proof (bulkDelete_size payload (products st)) as Hsize.
  rewrite Hid in Hsize. split; [lia|].
  destruct st. unfold set_products. simpl in *. by rewrite Hid.
Qed.

(** X11: deleting in two calls is deleting the concatenated list in one:
    the store is the same and the two counts add up to the count of the
    single call; a call repeated right away finds nothing left and reports
    0. *)
Theorem bulkDelete_compose (l1 l2 : list ObjectId) (st : Store) :
  ∃ n1 n2 st1 st2,
    ProductServices.bulkDelete l1 st = (Return n1, st1)
    ∧ ProductServices.bulkDelete l2 st1 = (Return n2, st2)
    ∧ ProductServices.bulkDelete (l1 ++ l2) st = (Return (n1 + n2)%nat, st2)
    ∧ ProductServices.bulkDelete l1 st1 = (Return 0%nat, st1).
Proof.
  eexists _, _, _, _. split; [apply bulkDelete_result|].
  split; [apply bulkDelete_result|]. rewrite !bulkDelete_result. simpl.
  set (m := products st).
  assert (filter (λ kv : ObjectId * doc, kv.1 ∉ l2)
            (filter (λ kv : ObjectId * doc, kv.1 ∉ l1) m) =
          filter (λ kv : ObjectId * doc, kv.1 ∉ l1 ++ l2) m) as Hboth.
  { rewrite map_filter_filter. apply map_filter_ext. intros i x _. simpl.
    rewrite elem_of_app. tauto. }
  assert (filter (λ kv : ObjectId * doc, kv.1 ∉ l1)
            (filter (λ kv : ObjectId * doc, kv.1 ∉ l1) m) =
          filter (λ kv : ObjectId * doc, kv.1 ∉ l1) m) as Htwice.
  { apply map_filter_id. by intros i x [_ ?]%map_lookup_filter_Some. }
  pose proof (bulkDelete_size (l1 ++ l2) m) as H12.
  pose proof (bulkDelete_size l1 m) as H1.
  pose proof (bulkDelete_size l2 (filter (λ kv : ObjectId * doc, kv.1 ∉ l1) m)) as H2.
  pose proof (bulkDelete_size l1 (filter (λ kv : ObjectId * doc, kv.1 ∉ l1) m)) as H11.
  rewrite Hboth in H2. rewrite Htwice in H11.
  unfold set_products. simpl. fold m. rewrite Hboth, Htwice. split; f_equal; f_equal; lia.
Qed.

(** X12: a deleted product is gone for every other operation: whoever asks,
    the query of [read] finds nothing, a sale of it throws
    400 'Product not found', and adding to its stock throws 400; none of
    the three changes the store. *)
Theorem bulkDelete_then_use (env : Deployment) (payload : list ObjectId) (st st' : Store)
    (n : nat) (id : ObjectId) :
  id ∈ payload →
  ProductServices.bulkDelete payload st = (Return n, st') →
  (∀ userId, ProductServices.findOne_user_id userId id st' = (Return None, st'))
  ∧ (∀ sale buyer, product sale = id →
       SaleServices.create env sale buyer st' =
         (Throw (CustomError 400 "Product not found"), st'))
  ∧ (∀ restock userId,
       ProductServices.addToStock env id restock userId st' =
         (Throw (CustomError 400 "Product create failed"), st')).
Proof.
  intros Hin. rewrite bulkDelete_result. intros [= <- <-].
  set (st' := set_products (filter (λ kv : ObjectId * doc, kv.1 ∉ payload)) st).
  assert (products st' !! id = None) as Hgone.
  { apply map_lookup_filter_None. right. intros x _ Hnot. by apply Hnot. }
  split; [|split].
  - intros userId. unfold ProductServices.findOne_user_id. by rewrite Hgone.
  - intros sale buyer Hsale. by rewrite create_cases, Hsale, Hgone.
  - intros restock userId. rewrite addToStock_cases, Hgone. by destruct (replicaSet env).
Qed.

Lemma bulkDelete_counts_removed_witness :
  (1 + size (products (ProductServices.bulkDelete [1%N; 5%N] shop).2) =
   size (products shop))%nat.
Proof.
  set (call := ProductServices.bulkDelete [1%N; 5%N] shop).
  pose proof (bulkDelete_counts_removed [1%N; 5%N] shop call.2 1%nat) as Hcount.
  destruct Hcount as [Hsize _]; [vm_compute; reflexivity|]. exact Hsize.
Defined.

Lemma bulkDelete_then_use_witness :
  SaleServices.create replica_set (order 3) 9%N (ProductServices.bulkDelete [1%N] shop).2 =
    (Throw (CustomError 400 "Product not found"), (ProductServices.bulkDelete [1%N] shop).2).
Proof.
  set (call := ProductServices.bulkDelete [1%N] shop).
  pose proof (bulkDelete_then_use replica_set [1%N] shop call.2 1%nat 1%N) as Huse.
  destruct Huse as (_ & Hsale & _);
    [apply elem_of_cons; left; reflexivity|vm_compute; reflexivity|].
  apply Hsale. reflexivity.
Defined.

(** ** ProductServices.addToStock: failure, the returned document, the seller *)

Section add_to_stock_more.
Context (env : Deployment).

(** X13: [addToStock] is all or nothing in every deployment: a call that
    throws leaves the store as it was, and what it throws is always the
    400 'Product create failed', whatever went wrong.  It throws for every
    input when the deployment has no replica set, and for an id that names
    no product. *)
Theorem addToStock_all_or_nothing (id : ObjectId) (payload : StockPayload) (userId : ObjectId) :
  atomic (ProductServices.addToStock env id payload userId)
  ∧ (∀ st e st',
       ProductServices.addToStock env id payload userId st = (Throw e, st') →
       e = CustomError 400 "Product create failed")
  ∧ (replicaSet env = false →
       ∀ st, ProductServices.addToStock env id payload userId st =
               (Throw (CustomError 400 "Product create failed"), st))
  ∧ (∀ st, products st !! id = None →
       ProductServices.addToStock env id payload userId st =
         (Throw (CustomError 400 "Product create failed"), st)).
Proof.
  split_and!.
  - intros st e st'. rewrite addToStock_cases. cbv zeta.
    repeat case_match; by intros [= <- <-].
  - intros st e st'. rewrite addToStock_cases. cbv zeta.
    repeat case_match; by intros [= <- <-].
  - intros Hrs st. by rewrite addToStock_cases, Hrs.
  - intros st Hnone. rewrite addToStock_cases, Hnone. by destruct (replicaSet env).
Qed.

(** X14: the document a successful [addToStock] returns is the product as
    it was before the call.  The store then holds the product with the stock
    raised by the amount of the payload and one more purchase record, for
    that product and the caller; the returned document still shows the old
    stock. *)
Theorem addToStock_returns_prior_document
    (id : ObjectId) (payload : StockPayload) (userId : ObjectId)
    (st st' : Store) (returned : doc) (s : Z) :
  num_field returned "stock" = Some s →
  ProductServices.addToStock env id payload userId st = (Return returned, st') →
  replicaSet env = true
  ∧ products st !! id = Some returned
  ∧ products st' = <[id := <["stock" := VNum (s + stock payload)]> returned]> (products st)
  ∧ on_hand id st' = Some (s + stock payload)
  ∧ get returned "stock" = VNum s
  ∧ sellers st' = sellers st
  ∧ sales st' = sales st
  ∧ ∃ record,
      purchases st' = purchases st ++ [record]
      ∧ get record "product" = VId id
      ∧ get record "user" = VId userId
      ∧ get record "seller" = get returned "seller".
Proof.
  intros Hs. rewrite addToStock_cases.
  destruct (replicaSet env); [|done].
  destruct (products st !! id) as [p|] eqn:Hp; [|done].
  destruct (inc_field _ _ _) as [p'|] eqn:Hinc; [|done]. simpl.
  destruct (purchase_schema env _); [done|]. intros [= -> <-].
  rewrite (inc_field_num _ _ _ s) in Hinc by done. injection Hinc as <-.
  unfold on_hand. simpl. rewrite lookup_insert_eq. simpl. rewrite num_field_insert_eq.
  apply num_field_lookup in Hs. unfold get at 1. rewrite Hs.
  split_and!; try done. by eexists.
Qed.

(** X15: unlike [create], [addToStock] does not need its seller.  With a
    replica set, a product with a numeric stock and a purchase record that
    passes the schema, the call returns although no seller has the id of the
    payload; the record then has no seller name, and its seller is the one
    of the product, not the one of the payload. *)
Theorem addToStock_without_seller
    (id : ObjectId) (payload : StockPayload) (userId : ObjectId)
    (st : Store) (p : doc) (s : Z) :
  replicaSet env = true →
  products st !! id = Some p →
  num_field p "stock" = Some s →
  sellers st !! seller payload = None →
  purchase_schema env (stock_purchase_of userId id None p) = None →
  ∃ st' record,
    ProductServices.addToStock env id payload userId st = (Return p, st')
    ∧ purchases st' = purchases st ++ [record]
    ∧ get record "sellerName" = VUndefined
    ∧ get record "seller" = get p "seller".
Proof.
  intros Hrs Hp Hs Hseller Hvalid.
  rewrite addToStock_cases, Hrs, Hp, (inc_field_num _ _ _ s), Hseller by done.
  simpl. rewrite Hvalid. by eexists _, _.
Qed.

(** X16: on a product stored without a [stock] field, [addToStock] creates
    the field with the amount of the payload, and the purchase record it
    writes has the quantity and the total price NaN. *)
Theorem addToStock_on_product_without_stock
    (id : ObjectId) (payload : StockPayload) (userId : ObjectId)
    (st st' : Store) (returned : doc) :
  returned !! "stock" = None →
  ProductServices.addToStock env id payload userId st = (Return returned, st') →
  on_hand id st' = Some (stock payload)
  ∧ ∃ record,
      purchases st' = purchases st ++ [record]
      ∧ get record "quantity" = VNaN
      ∧ get record "totalPrice" = VNaN.
Proof.
  intros Hnone. rewrite addToStock_cases.
  destruct (replicaSet env); [|done].
  destruct (products st !! id) as [p|] eqn:Hp; [|done].
  destruct (inc_field _ _ _) as [p'|] eqn:Hinc; [|done]. simpl.
  destruct (purchase_schema env _); [done|]. intros [= -> <-].
  unfold inc_field in Hinc. rewrite Hnone in Hinc. injection Hinc as <-.
  unfold on_hand. simpl. rewrite lookup_insert_eq. simpl. rewrite num_field_insert_eq.
  split; [done|]. eexists. split; [done|].
  unfold stock_purchase_of, purchase_record, get, Number, js_mul. simpl.
  by rewrite Hnone.
Qed.
End add_to_stock_more.

Lemma addToStock_all_or_nothing_witness :
  ProductServices.addToStock standalone_strict 1%N (mkStockPayload 7%N 3) 9%N shop =
    (Throw (CustomError 400 "Product create failed"), shop).
Proof.
  destruct (addToStock_all_or_nothing standalone_strict 1%N (mkStockPayload 7%N 3) 9%N)
    as (_ & _ & Hstandalone & _).
  apply Hstandalone. reflexivity.
Defined.

Lemma addToStock_returns_prior_document_witness :
  on_hand 1%N (ProductServices.addToStock replica_set 1%N (mkStockPayload 7%N 3) 9%N shop).2 =
    Some 13
  ∧ get widget "stock" = VNum 10.
Proof.
  set (call := ProductServices.addToStock replica_set 1%N (mkStockPayload 7%N 3) 9%N shop).
  assert (call = (Return widget, call.2)) as Hcall by (vm_compute; reflexivity).
  pose proof (addToStock_returns_prior_document replica_set 1%N (mkStockPayload 7%N 3) 9%N
                shop call.2 widget 10) as Hreturned.
  destruct Hreturned as (_ & _ & _ & Hstock & Hold & _); [reflexivity|exact Hcall|].
  split; [exact Hstock|exact Hold].
Defined.

Lemma addToStock_without_seller_witness :
  ∃ st' record,
    ProductServices.addToStock replica_set 1%N (mkStockPayload 4%N 3) 9%N shop =
      (Return widget, st')
    ∧ purchases st' = purchases shop ++ [record]
    ∧ get record "sellerName" = VUndefined.
Proof.
  pose proof (addToStock_without_seller replica_set 1%N (mkStockPayload 4%N 3) 9%N
                shop widget 10) as Hcall.
  destruct Hcall as (st' & record & Hreturn & Hpurchases & Hname & _);
    [reflexivity|reflexivity|reflexivity|reflexivity|reflexivity|].
  exists st', record. split; [exact Hreturn|]. split; [exact Hpurchases|exact Hname].
Defined.

Lemma addToStock_on_product_without_stock_witness :
  on_hand 1%N
    (ProductServices.addToStock replica_set 1%N (mkStockPayload 7%N 3) 9%N
       (mkStore {[ 1%N := delete "stock" widget ]} (sellers shop) [] [])).2 = Some 3.
Proof.
  set (st := mkStore {[ 1%N := delete "stock" widget ]} (sellers shop) [] []).
  set (call := ProductServices.addToStock replica_set 1%N (mkStockPayload 7%N 3) 9%N st).
  assert (call = (Return (delete "stock" widget), call.2)) as Hcall
    by (vm_compute; reflexivity).
  pose proof (addToStock_on_product_without_stock replica_set 1%N (mkStockPayload 7%N 3) 9%N
                st call.2 (delete "stock" widget)) as Hstock.
  destruct Hstock as [Hstock _]; [apply lookup_delete_eq|exact Hcall|]. exact Hstock.
Defined.

(** ** ProductServices.countTotalProduct *)

Global Instance Zsum_Permutation : Proper ((≡ₚ) ==> (=)) Zsum.
Proof.
  intros l1 l2 Hperm. unfold Zsum.
  induction Hperm as [|x l1 l2 _ IH|x y l|l1 l2 l3 _ IH1 _ IH2]; simpl; lia.
Qed.

Lemma sum_stage_numeric (l : list doc) :
  Forall (λ d, is_Some (num_field d "stock")) l →
  foldr ProductServices.sum_add (VNum 0) ((λ d, get d "stock") <$> l) =
  VNum (Zsum ((λ d, default 0 (num_field d "stock")) <$> l)).
Proof.
  induction 1 as [|d l [s Hs] _ IH]; [done|]. csimpl. rewrite IH, Hs.
  apply num_field_lookup in Hs. unfold get. by rewrite Hs.
Qed.

Lemma countTotalProduct_result (userId : ObjectId) (st : Store) :
  ProductServices.countTotalProduct userId st =
  (Return (match products_of userId st with
           | [] => []
           | _ :: _ =>
               [ProductServices.mkQuantityRow
                  (foldr ProductServices.sum_add (VNum 0)
                     ((λ d, get d "stock") <$> products_of userId st))]
           end), st).
Proof. done. Qed.

Lemma products_of_stock_nonneg (userId : ObjectId) (st : Store) :
  stock_nonneg st →
  Forall (λ d, ∃ s, num_field d "stock" = Some s ∧ 0 ≤ s) (products_of userId st).
Proof.
  intros Hst. apply Forall_forall. intros d [_ Hd]%list_elem_of_filter.
  apply list_elem_of_fmap in Hd as ([i d'] & -> & Hd%elem_of_map_to_list).
  by apply (Hst i).
Qed.

Lemma stock_total_nonneg (userId : ObjectId) (st : Store) :
  stock_nonneg st → 0 ≤ stock_total userId st.
Proof.
  intros Hst%(products_of_stock_nonneg userId). unfold stock_total, Zsum.
  induction Hst as [|d l (s & Hs & Hs0) _ IH]; csimpl; [done|]. rewrite Hs. simpl. lia.
Qed.

(** The products of a user after one product was replaced by a document
    with the same owner. *)
Lemma products_of_insert (userId : ObjectId) (st : Store) (i : ObjectId) (p p' : doc) :
  products st !! i = Some p →
  p' !! "user" = p !! "user" →
  ∃ rest,
    products_of userId st ≡ₚ
      (if decide (p !! "user" = Some (VId userId)) then [p] else []) ++ rest
    ∧ products_of userId (set_products <[i := p']> st) ≡ₚ
      (if decide (p !! "user" = Some (VId userId)) then [p'] else []) ++ rest.
Proof.
  intros Hp Huser.
  exists (filter (λ d : doc, d !! "user" = Some (VId userId))
            (map_to_list (delete i (products st))).*2).
  unfold products_of. simpl. split.
  - rewrite <- (map_to_list_delete (products st) i p) by done. csimpl.
    rewrite filter_cons. by destruct (decide (p !! "user" = Some (VId userId))).
  - rewrite <- insert_delete_eq, map_to_list_insert by apply lookup_delete_eq. csimpl.
    rewrite filter_cons, Huser.
    by destruct (decide (p !! "user" = Some (VId userId))).
Qed.

Section count_total.
Context (env : Deployment).

(** X17: in a store whose products all carry a non-negative numeric stock,
    [countTotalProduct] leaves the store alone and answers with no document
    for a user without products, and otherwise with one document whose
    [totalQuantity] is the sum of the stocks of the products of that user,
    which is not negative. *)
Theorem countTotalProduct_sums_stock (userId : ObjectId) (st st' : Store)
    (rows : list ProductServices.QuantityRow) :
  stock_nonneg st →
  ProductServices.countTotalProduct userId st = (Return rows, st') →
  st' = st
  ∧ (products_of userId st = [] → rows = [])
  ∧ (products_of userId st ≠ [] →
       rows = [ProductServices.mkQuantityRow (VNum (stock_total userId st))]
       ∧ 0 ≤ stock_total userId st).
Proof.
  intros Hst. rewrite countTotalProduct_result. intros [= <- <-].
  split; [done|]. split; [by intros ->|]. intros Hne.
  split; [|by apply stock_total_nonneg].
  rewrite sum_stage_numeric.
  - unfold stock_total. by destruct (products_of userId st).
  - eapply Forall_impl; [by apply products_of_stock_nonneg|]. by intros d (s & -> & _).
Qed.

(** X18: a recorded sale shows in the total of the owner of the product and
    in no other.  In a store whose products all carry a non-negative numeric
    stock, after a sale create that returns, [countTotalProduct] for the owner
    answers with the former total minus the quantity sold, and the total of
    every other user is what it was. *)
Theorem sale_lowers_owner_total (payload : Sale) (userId owner : ObjectId) (st st' : Store)
    (p : doc) (result : list Sale) :
  stock_nonneg st →
  products st !! product payload = Some p →
  p !! "user" = Some (VId owner) →
  SaleServices.create env payload userId st = (Return result, st') →
  ProductServices.countTotalProduct owner st' =
    (Return [ProductServices.mkQuantityRow (VNum (stock_total owner st - quantity payload))],
     st')
  ∧ (∀ other, other ≠ owner → stock_total other st' = stock_total other st).
Proof.
  intros Hst Hp Howner Hcreate.
  pose proof (create_stock_nonneg env payload userId st Hst) as Hst'.
  rewrite Hcreate in Hst'. simpl in Hst'.
  destruct (Hst _ _ Hp) as (s & Hs & _).
  rewrite create_cases, Hp, (js_gt_num _ s) in Hcreate by done.
  case_bool_decide as Hq; [done|].
  rewrite (inc_field_num _ _ _ s) in Hcreate by done. simpl in Hcreate.
  destruct (sale_schema env _); [done|]. injection Hcreate as _ <-.
  set (p' := <["stock" := VNum (s + - quantity payload)]> p).
  assert (p' !! "user" = p !! "user") as Huser by (by unfold p'; rewrite lookup_insert_ne).
  assert (∀ u, stock_total u (set_sales (λ l, l ++ [sale_of payload userId])
                               (set_products <[product payload := p']> st)) =
               stock_total u (set_products <[product payload := p']> st)) as Hsales by done.
  assert (∀ u, stock_total u (set_products <[product payload := p']> st) =
               stock_total u st
               - (if decide (p !! "user" = Some (VId u)) then quantity payload else 0))
    as Htotal.
  { intros u. destruct (products_of_insert u st (product payload) p p' Hp Huser)
      as (rest & Hbefore & Hafter).
    unfold stock_total. rewrite Hbefore, Hafter.
    destruct (decide (p !! "user" = Some (VId u))); csimpl; [|lia].
    unfold p'. rewrite num_field_insert_eq, Hs. unfold Zsum. simpl. lia. }
  split.
  - rewrite countTotalProduct_result. f_equal.
    destruct (products_of_insert owner st (product payload) p p' Hp Huser)
      as (rest & _ & Hafter).
    rewrite decide_True in Hafter by done.
    rewrite sum_stage_numeric.
    + fold (stock_total owner (set_sales (λ l, l ++ [sale_of payload userId])
                                 (set_products <[product payload := p']> st))).
      rewrite Hsales, Htotal, decide_True by done.
      destruct (products_of owner _) eqn:Hnil; [|done].
      by apply Permutation_nil_cons in Hafter.
    + eapply Forall_impl; [by apply (products_of_stock_nonneg owner _ Hst')|].
      by intros d (x & -> & _).
  - intros other Hother. rewrite Hsales, Htotal, decide_False; [lia|].
    rewrite Howner. by intros [= ->].
Qed.
End count_total.

Lemma countTotalProduct_sums_stock_witness :
  ProductServices.countTotalProduct 8%N shop =
    (Return [ProductServices.mkQuantityRow (VNum (stock_total 8%N shop))], shop).
Proof.
  assert (stock_nonneg shop) as Hshop.
  { intros i x. unfold shop. simpl. intros [<- <-]%lookup_singleton_Some.
    exists 10. split; [reflexivity|lia]. }
  set (call := ProductServices.countTotalProduct 8%N shop).
  assert (call = (Return (match call.1 with Return r => r | Throw _ => [] end), shop))
    as Hcall by (vm_compute; reflexivity).
  pose proof (countTotalProduct_sums_stock 8%N shop shop _ Hshop Hcall) as Hcount.
  destruct Hcount as (_ & _ & Hrows). destruct Hrows as [Hrows _].
  { vm_compute. discriminate. }
  rewrite <- Hrows. exact Hcall.
Defined.

Lemma sale_lowers_owner_total_witness :
  ProductServices.countTotalProduct 8%N (SaleServices.create replica_set (order 3) 9%N shop).2 =
    (Return [ProductServices.mkQuantityRow (VNum (stock_total 8%N shop - 3))],
     (SaleServices.create replica_set (order 3) 9%N shop).2).
Proof.
  assert (stock_nonneg shop) as Hshop.
  { intros i x. unfold shop. simpl. intros [<- <-]%lookup_singleton_Some.
    exists 10. split; [reflexivity|lia]. }
  set (call := SaleServices.create replica_set (order 3) 9%N shop).
  assert (call = (Return (match call.1 with Return r => r | Throw _ => [] end), call.2))
    as Hcall by (vm_compute; reflexivity).
  pose proof (sale_lowers_owner_total replica_set (order 3) 9%N 8%N shop call.2 widget _
                Hshop eq_refl eq_refl Hcall) as Htotal.
  destruct Htotal as [Htotal _]. exact Htotal.
Defined.

(** ** The revenue rollups: grand totals, empty answers, order of the collection *)

Lemma dated_sales_match_user_dated (userId : ObjectId) (l : list Sale) :
  snd <$> match_user_dated userId l = dated_sales userId l.
Proof.
  unfold match_user_dated, dated_sales. induction l as [|s l IH]; [done|].
  rewrite filter_cons. csimpl.
  destruct (decide (user s = userId)) as [Hu|Hu].
  - destruct (date s) as [d|] eqn:Hd; csimpl.
    + rewrite decide_True by (split; [done|by eexists]). by rewrite IH.
    + rewrite decide_False; [done|]. by intros [_ [? ?]].
  - rewrite decide_False; [done|]. by intros [? _].
Qed.

Section rollup_more.
Context {K R : Type} `{EqDecision K}.
Context (key : Date → K) (fields : K → list Z).
Context (project : Group K → R) (row_quantity row_revenue : R → Z).
Hypothesis project_quantity : ∀ g, row_quantity (project g) = totalQuantity g.
Hypothesis project_revenue : ∀ g, row_revenue (project g) = totalRevenue g.

Lemma group_add_sums (k : K) (q r : Z) (gs : list (Group K)) :
  Zsum (totalQuantity <$> group_add k q r gs) = Zsum (totalQuantity <$> gs) + q
  ∧ Zsum (totalRevenue <$> group_add k q r gs) = Zsum (totalRevenue <$> gs) + r.
Proof.
  unfold Zsum. induction gs as [|g gs [IHq IHr]]; csimpl; [lia|].
  destruct (decide (_id g = k)); csimpl; lia.
Qed.

Lemma group_stage_sums (docs : list (Date * Sale)) :
  Zsum (totalQuantity <$> group_stage key docs) = Zsum (quantity <$> (snd <$> docs))
  ∧ Zsum (totalRevenue <$> group_stage key docs) = Zsum (totalPrice <$> (snd <$> docs)).
Proof.
  induction docs as [|ds docs [IHq IHr]] using rev_ind; [done|].
  rewrite group_stage_snoc, !fmap_app, !Zsum_app.
  destruct (group_add_sums (key ds.1) (quantity ds.2) (totalPrice ds.2)
              (group_stage key docs)) as [-> ->].
  rewrite IHq, IHr. unfold Zsum. simpl. lia.
Qed.

Lemma group_add_not_nil (k : K) (q r : Z) (gs : list (Group K)) : group_add k q r gs ≠ [].
Proof. destruct gs as [|g gs]; simpl; [done|]. by destruct (decide (_id g = k)). Qed.

Lemma group_stage_nil (docs : list (Date * Sale)) : group_stage key docs = [] ↔ docs = [].
Proof.
  split; [|by intros ->].
  destruct docs as [|ds docs _] using rev_ind; [done|].
  rewrite group_stage_snoc. intros Hnil. by apply group_add_not_nil in Hnil.
Qed.

(** The rows of a rollup add up to the totals over the dated sales of the
    user, and there are rows exactly when there is such a sale. *)
Lemma pipeline_totals (userId : ObjectId) (l : list Sale) :
  let rows := project <$> sort_stage fields (group_stage key (match_user_dated userId l)) in
  Zsum (row_quantity <$> rows) = Zsum (quantity <$> dated_sales userId l)
  ∧ Zsum (row_revenue <$> rows) = Zsum (totalPrice <$> dated_sales userId l)
  ∧ (rows = [] ↔ dated_sales userId l = []).
Proof.
  simpl. set (gs := group_stage key (match_user_dated userId l)).
  pose proof (sort_stage_Permutation fields gs) as Hperm.
  destruct (group_stage_sums (match_user_dated userId l)) as [Hq Hr].
  rewrite dated_sales_match_user_dated in Hq, Hr. fold gs in Hq, Hr.
  split; [|split].
  - rewrite <- Hq, <- list_fmap_compose.
    rewrite (list_fmap_ext (row_quantity ∘ project) totalQuantity)
      by (intros; apply project_quantity).
    apply Zsum_Permutation. by rewrite Hperm.
  - rewrite <- Hr, <- list_fmap_compose.
    rewrite (list_fmap_ext (row_revenue ∘ project) totalRevenue)
      by (intros; apply project_revenue).
    apply Zsum_Permutation. by rewrite Hperm.
  - rewrite <- dated_sales_match_user_dated. split.
    + intros Hrows%fmap_nil_inv. rewrite Hrows in Hperm.
      symmetry in Hperm. apply Permutation_nil_r in Hperm.
      apply group_stage_nil in Hperm. by rewrite Hperm.
    + intros Hdocs%fmap_nil_inv. unfold gs. by rewrite Hdocs.
Qed.
End rollup_more.

Section rollup_totals.
Context (isoWeek isoWeekYear year month dayOfMonth : Date → Z).

Lemma weeks_totals (userId : ObjectId) (l : list Sale) :
  let rows :=
    (λ g, match _id g with (week, year) =>
            Weeks.mkRow week year (totalQuantity g) (totalRevenue g) end)
    <$> sort_stage (λ '(week, year), [year; week])
          (group_stage (λ d, (isoWeek d, isoWeekYear d)) (match_user_dated userId l)) in
  Zsum (Weeks.totalQuantity <$> rows) = Zsum (quantity <$> dated_sales userId l)
  ∧ Zsum (Weeks.totalRevenue <$> rows) = Zsum (totalPrice <$> dated_sales userId l)
  ∧ (rows = [] ↔ dated_sales userId l = []).
Proof. apply pipeline_totals; intros g; by destruct (_id g). Qed.

Lemma years_totals (userId : ObjectId) (l : list Sale) :
  let rows :=
    (λ g, Years.mkRow (_id g) (totalQuantity g) (totalRevenue g))
    <$> sort_stage (λ year, [year])
          (group_stage (λ d, year d) (match_user_dated userId l)) in
  Zsum (Years.totalQuantity <$> rows) = Zsum (quantity <$> dated_sales userId l)
  ∧ Zsum (Years.totalRevenue <$> rows) = Zsum (totalPrice <$> dated_sales userId l)
  ∧ (rows = [] ↔ dated_sales userId l = []).
Proof. by apply pipeline_totals. Qed.

Lemma days_totals (userId : ObjectId) (l : list Sale) :
  let rows :=
    (λ g, match _id g with (day, month, year) =>
            Days.mkRow day month year (totalQuantity g) (totalRevenue g) end)
    <$> sort_stage (λ '(day, month, year), [year; month; day])
          (group_stage (λ d, (dayOfMonth d, month d, year d)) (match_user_dated userId l)) in
  Zsum (Days.totalQuantity <$> rows) = Zsum (quantity <$> dated_sales userId l)
  ∧ Zsum (Days.totalRevenue <$> rows) = Zsum (totalPrice <$> dated_sales userId l)
  ∧ (rows = [] ↔ dated_sales userId l = []).
Proof. apply pipeline_totals; intros g; by destruct (_id g) as [[? ?] ?]. Qed.

Lemma months_totals (userId : ObjectId) (l : list Sale) :
  let rows :=
    (λ g, match _id g with (month, year) =>
            Months.mkRow month year (totalQuantity g) (totalRevenue g) end)
    <$> sort_stage (λ '(month, year), [year; month])
          (group_stage (λ d, (month d, year d)) (match_user_dated userId l)) in
  Zsum (Months.totalQuantity <$> rows) = Zsum (quantity <$> dated_sales userId l)
  ∧ Zsum (Months.totalRevenue <$> rows) = Zsum (totalPrice <$> dated_sales userId l)
  ∧ (rows = [] ↔ dated_sales userId l = []).
Proof. apply pipeline_totals; intros g; by destruct (_id g). Qed.

(** X19: the rows of each rollup add up to the same grand totals: the sum
    of the [totalQuantity] of the rows is the sum of the quantities of the
    dated sales of the user and the sum of the [totalRevenue] is the sum of
    their total prices, so the weekly, yearly, daily and monthly rollups of
    a user agree on both. *)
Theorem rollups_add_up (userId : ObjectId) (st : Store) :
  ∃ weeks years days months,
    SaleServices.readAllWeeks isoWeek isoWeekYear userId st = (Return weeks, st)
    ∧ SaleServices.readAllYearly year userId st = (Return years, st)
    ∧ SaleServices.readAllDaily year month dayOfMonth userId st = (Return days, st)
    ∧ SaleServices.readAllMonths year month userId st = (Return months, st)
    ∧ Zsum (Weeks.totalQuantity <$> weeks) = Zsum (quantity <$> dated_sales userId (sales st))
    ∧ Zsum (Years.totalQuantity <$> years) = Zsum (quantity <$> dated_sales userId (sales st))
    ∧ Zsum (Days.totalQuantity <$> days) = Zsum (quantity <$> dated_sales userId (sales st))
    ∧ Zsum (Months.totalQuantity <$> months) = Zsum (quantity <$> dated_sales userId (sales st))
    ∧ Zsum (Weeks.totalRevenue <$> weeks) = Zsum (totalPrice <$> dated_sales userId (sales st))
    ∧ Zsum (Years.totalRevenue <$> years) = Zsum (totalPrice <$> dated_sales userId (sales st))
    ∧ Zsum (Days.totalRevenue <$> days) = Zsum (totalPrice <$> dated_sales userId (sales st))
    ∧ Zsum (Months.totalRevenue <$> months) =
        Zsum (totalPrice <$> dated_sales userId (sales st)).
Proof.
  destruct (weeks_totals userId (sales st)) as (Hwq & Hwr & _).
  destruct (years_totals userId (sales st)) as (Hyq & Hyr & _).
  destruct (days_totals userId (sales st)) as (Hdq & Hdr & _).
  destruct (months_totals userId (sales st)) as (Hmq & Hmr & _).
  eexists _, _, _, _. do 4 (split; [reflexivity|]). by split_and!.
Qed.

(** X20: a rollup answers with no row exactly when the user has no sale
    with a date; sales of other users and sales without a date never
    produce a row. *)
Theorem rollups_empty_iff (userId : ObjectId) (st : Store) :
  ∃ weeks years days months,
    SaleServices.readAllWeeks isoWeek isoWeekYear userId st = (Return weeks, st)
    ∧ SaleServices.readAllYearly year userId st = (Return years, st)
    ∧ SaleServices.readAllDaily year month dayOfMonth userId st = (Return days, st)
    ∧ SaleServices.readAllMonths year month userId st = (Return months, st)
    ∧ (weeks = [] ↔ dated_sales userId (sales st) = [])
    ∧ (years = [] ↔ dated_sales userId (sales st) = [])
    ∧ (days = [] ↔ dated_sales userId (sales st) = [])
    ∧ (months = [] ↔ dated_sales userId (sales st) = []).
Proof.
  destruct (weeks_totals userId (sales st)) as (_ & _ & Hw).
  destruct (years_totals userId (sales st)) as (_ & _ & Hy).
  destruct (days_totals userId (sales st)) as (_ & _ & Hd).
  destruct (months_totals userId (sales st)) as (_ & _ & Hm).
  eexists _, _, _, _. do 4 (split; [reflexivity|]). by split_and!.
Qed.
End rollup_totals.

Lemma lex_leb_antisym (a b : list Z) :
  lex_leb a b = true → lex_leb b a = true → a = b.
Proof.
  revert b. induction a as [|x a IH]; intros [|y b]; simpl; try done.
  rewrite !orb_true_iff, !andb_true_iff, !Z.ltb_lt, !Z.eqb_eq.
  intros [?|[Hxy Hab]] [?|[? Hba]]; try (exfalso; lia). subst. f_equal. by apply IH.
Qed.

Lemma NoDup_fmap_elem_inj {A B} (f : A → B) (l : list A) (x y : A) :
  NoDup (f <$> l) → x ∈ l → y ∈ l → f x = f y → x = y.
Proof.
  induction l as [|a l IH]; csimpl; [by intros _ ?%elem_of_nil|].
  intros [Ha Hnd]%NoDup_cons [->|Hx]%elem_of_cons [->|Hy]%elem_of_cons Hxy; auto.
  - destruct Ha. rewrite Hxy. by apply list_elem_of_fmap_2.
  - destruct Ha. rewrite <- Hxy. by apply list_elem_of_fmap_2.
Qed.

Section rollup_order.
Context {K R : Type} `{EqDecision K}.
Context (key : Date → K) (fields : K → list Z) (project : Group K → R).
Hypothesis fields_inj : ∀ a b, fields a = fields b → a = b.

Lemma totals_group_stage_Permutation (docs docs' : list (Date * Sale)) (k : K) :
  docs ≡ₚ docs' → totals (group_stage key docs) k = totals (group_stage key docs') k.
Proof.
  intros Hperm. rewrite !totals_group_stage.
  assert (bucket key k docs ≡ₚ bucket key k docs') as Hb by (unfold bucket; by rewrite Hperm).
  destruct (bucket key k docs) as [|x b], (bucket key k docs') as [|x' b'].
  - done.
  - by apply Permutation_nil_cons in Hb.
  - symmetry in Hb. by apply Permutation_nil_cons in Hb.
  - f_equal. f_equal; apply Zsum_Permutation; by rewrite Hb.
Qed.

Lemma group_stage_Permutation (docs docs' : list (Date * Sale)) :
  docs ≡ₚ docs' → group_stage key docs ≡ₚ group_stage key docs'.
Proof.
  intros Hperm.
  assert (∀ d1 d2, d1 ≡ₚ d2 → ∀ g, g ∈ group_stage key d1 → g ∈ group_stage key d2) as Hin.
  { intros d1 d2 H12 g Hg.
    apply (elem_of_totals _ _ (NoDup_group_stage key d1)) in Hg.
    rewrite (totals_group_stage_Permutation d1 d2) in Hg by done.
    apply totals_Some_elem_of in Hg. by destruct g. }
  apply NoDup_Permutation.
  - eapply NoDup_fmap_1, NoDup_group_stage.
  - eapply NoDup_fmap_1, NoDup_group_stage.
  - intros g. split; by apply Hin.
Qed.

(** The rollup does not depend on the order in which the collection hands
    over its documents. *)
Lemma pipeline_Permutation (userId : ObjectId) (l l' : list Sale) :
  l ≡ₚ l' →
  project <$> sort_stage fields (group_stage key (match_user_dated userId l)) =
  project <$> sort_stage fields (group_stage key (match_user_dated userId l')).
Proof.
  intros Hperm. f_equal.
  assert (group_stage key (match_user_dated userId l) ≡ₚ
          group_stage key (match_user_dated userId l')) as Hgs.
  { apply group_stage_Permutation. unfold match_user_dated. by rewrite Hperm. }
  apply (StronglySorted_unique_strong (sorts_before fields)).
  - intros g h Hg Hh Hgh Hhg.
    rewrite sort_stage_Permutation in Hg. rewrite sort_stage_Permutation, <- Hgs in Hh.
    apply (NoDup_fmap_elem_inj _id (group_stage key (match_user_dated userId l)));
      [apply NoDup_group_stage|done|done|].
    apply fields_inj. by apply lex_leb_antisym.
  - apply sort_stage_sorted.
  - apply sort_stage_sorted.
  - by rewrite !sort_stage_Permutation.
Qed.
End rollup_order.

Section rollup_order_results.
Context (isoWeek isoWeekYear year month dayOfMonth : Date → Z).

(** X21: the four rollups depend on the sales in the collection, not on the
    order in which the collection holds them: two stores whose sale
    collections hold the same documents in different orders get the same
    rows, in the same order. *)
Theorem rollups_ignore_collection_order (userId : ObjectId) (st1 st2 : Store) :
  sales st1 ≡ₚ sales st2 →
  (SaleServices.readAllWeeks isoWeek isoWeekYear userId st1).1 =
    (SaleServices.readAllWeeks isoWeek isoWeekYear userId st2).1
  ∧ (SaleServices.readAllYearly year userId st1).1 =
      (SaleServices.readAllYearly year userId st2).1
  ∧ (SaleServices.readAllDaily year month dayOfMonth userId st1).1 =
      (SaleServices.readAllDaily year month dayOfMonth userId st2).1
  ∧ (SaleServices.readAllMonths year month userId st1).1 =
      (SaleServices.readAllMonths year month userId st2).1.
Proof.
  intros Hperm.
  unfold SaleServices.readAllWeeks, SaleServices.readAllYearly, SaleServices.readAllDaily,
    SaleServices.readAllMonths, Sale_aggregate. simpl.
  split_and!; f_equal; apply pipeline_Permutation; try done.
  - by intros [w1 y1] [w2 y2] [= -> ->].
  - by intros y1 y2 [= ->].
  - by intros [[d1 m1] y1] [[d2 m2] y2] [= -> -> ->].
  - by intros [m1 y1] [m2 y2] [= -> ->].
Qed.
End rollup_order_results.

Lemma rollups_ignore_collection_order_witness :
  (SaleServices.readAllYearly (λ d, d `div` 10000) 9%N ledger).1 =
  (SaleServices.readAllYearly (λ d, d `div` 10000) 9%N
     (mkStore (products ledger) (sellers ledger) (reverse (sales ledger)) [])).1.
Proof.
  apply (rollups_ignore_collection_order (λ d, d) (λ d, d) (λ d, d `div` 10000)
           (λ d, d) (λ d, d) 9%N ledger
           (mkStore (products ledger) (sellers ledger) (reverse (sales ledger)) [])).
  simpl. symmetry. apply reverse_Permutation.
Defined.

(** ** SaleServices.readAll: reading only, and the search that is not there *)

Section read_all_more.
Context (regex_i : string → option (string → bool)).
Context (sortAndPaginatePipeline : doc → list Sale → list Sale).

(** X22: [readAll] only reads: whatever its outcome the store is the one it
    started from.  It returns exactly when the search is absent, falsy or a
    string and the pattern compiles; otherwise it throws the error of the
    server as it is, not wrapped into a 400. *)
Theorem readAll_reads_only (query : doc) (userId : ObjectId) (st st' : Store)
    (r : outcome Page) :
  SaleServices.readAll regex_i sortAndPaginatePipeline query userId st = (r, st') →
  st' = st
  ∧ ((∃ page, r = Return page) ↔
     ∃ search, search_of query = VStr search ∧ is_Some (regex_i search))
  ∧ (∀ e, r = Throw e → ∃ m, e = DriverError m).
Proof.
  rewrite readAll_cases.
  destruct (search_of query) as [| | | | |search|] eqn:Hsearch;
    try (intros [= <- <-]; split; [done|]; split; [|by intros e [= <-]; eauto];
         split; [by intros [? ?]|by intros (? & ? & ?)]).
  destruct (regex_i search) as [re|] eqn:Hre; intros [= <- <-].
  - split; [done|]. split; [|done]. split; [|by eauto].
    intros _. exists search. by rewrite Hre.
  - split; [done|]. split; [|by intros e [= <-]; eauto]. split; [by intros [? ?]|].
    intros (search' & [= <-] & Hsome). rewrite Hre in Hsome. by destruct Hsome.
Qed.

(** X23: without a search term the pattern is the empty one.  When the
    empty pattern compiles and matches every name, the data are all the
    sales of the user passed through sort and pagination, and the count is
    the number of sales the search matched. *)
Theorem readAll_without_search (query : doc) (userId : ObjectId) (st : Store)
    (re : string → bool) :
  truthy (get query "search") = false →
  regex_i "" = Some re →
  (∀ name, re name = true) →
  ∃ page,
    SaleServices.readAll regex_i sortAndPaginatePipeline query userId st = (Return page, st)
    ∧ data page = sortAndPaginatePipeline query (owned userId (sales st))
    ∧ matching re userId (sales st) = owned userId (sales st)
    ∧ count_of (totalCount page) = Z.of_nat (length (matching re userId (sales st))).
Proof.
  intros Hfalsy Hre Hall.
  assert (matching re userId (sales st) = owned userId (sales st)) as Hsame.
  { unfold matching, owned. apply list_filter_iff. intros s. rewrite !Hall.
    split; [by intros [? _]|done]. }
  rewrite readAll_cases. unfold search_of. rewrite Hfalsy, Hre.
  eexists. split; [done|]. simpl. rewrite count_of_count_stage, Hsame. done.
Qed.
End read_all_more.

Lemma readAll_reads_only_witness :
  (SaleServices.readAll substring_match (λ _ l, l) {[ "search" := VNum 5 ]} 9%N ledger).2 =
    ledger.
Proof.
  set (call := SaleServices.readAll substring_match (λ _ l, l) {[ "search" := VNum 5 ]}
                 9%N ledger).
  pose proof (readAll_reads_only substring_match (λ _ l, l) {[ "search" := VNum 5 ]}
                9%N ledger call.2 call.1 (surjective_pairing call)) as Hread.
  destruct Hread as [Hstore _]. exact Hstore.
Defined.

Lemma readAll_without_search_witness :
  ∃ page,
    SaleServices.readAll substring_match (λ _ l, l) ∅ 9%N ledger = (Return page, ledger)
    ∧ data page = owned 9%N (sales ledger).
Proof.
  pose proof (readAll_without_search substring_match (λ _ l, l) ∅ 9%N ledger
                (λ subject, bool_decide (is_Some (String.index 0 "" subject)))) as Hall.
  destruct Hall as (page & Hcall & Hdata & _);
    [reflexivity|reflexivity|intros name; destruct name; reflexivity|].
  exists page. split; [exact Hcall|exact Hdata].
Defined.

(** ** The stock guard and a product stored without a stock *)

